(** * The development-server command of the ANAL framework

    A shallow embedding of [anal/cli/commands/runserver.py] and the
    properties of its application locator, its reload watch set and the
    configuration it hands to the server runner.

    The Python code talks to the interpreter's import machinery, to the
    file system and to [uvicorn].  Those are taken as a [World]: a record of
    oracles answering the questions the code asks.  Every function of the
    source becomes a computation in a small trace-and-exception monad, so
    that "no import is attempted" and "the server runner is never called"
    are statements about the trace. *)

From Stdlib Require Import ZArith Ascii String DecimalString.
From stdpp Require Import base list strings gmap.

Local Open Scope string_scope.
Local Open Scope Z_scope.

(** ** Python strings *)

Module PyStr.

(** [c in s] for a one-character needle. *)
Fixpoint contains (c : ascii) (s : string) : bool :=
  match s with
  | EmptyString => false
  | String a r => Ascii.eqb a c || contains c r
  end.

(** [s.split(c, 1)]: one element when [c] does not occur, two otherwise. *)
Fixpoint split1 (c : ascii) (s : string) : list string :=
  match s with
  | EmptyString => [EmptyString]
  | String a r =>
      if Ascii.eqb a c then [EmptyString; r]
      else match split1 c r with
           | x :: rest => String a x :: rest
           | [] => []
           end
  end.

(** [s.startswith(p)]. *)
Fixpoint startswith (p s : string) : bool :=
  match p, s with
  | EmptyString, _ => true
  | String a p', String b s' => Ascii.eqb a b && startswith p' s'
  | String _ _, EmptyString => false
  end.

(** [s.replace(old, new)] for a non-empty [old]: occurrences are found
    left to right and do not overlap.  [skip] counts the characters of
    the current occurrence that are still to be dropped. *)
Fixpoint replace_from (old new s : string) (skip : nat) : string :=
  match s with
  | EmptyString => EmptyString
  | String a r =>
      match skip with
      | S k => replace_from old new r k
      | O =>
          if startswith old s
          then new +:+ replace_from old new r (String.length old - 1)
          else String a (replace_from old new r O)
      end
  end.

Definition replace (old new s : string) : string := replace_from old new s O.

(** [s.rstrip(chars)]: drops the longest suffix made of characters of
    [chars]. *)
Fixpoint rstrip (chars s : string) : string :=
  match s with
  | EmptyString => EmptyString
  | String a r =>
      match rstrip chars r with
      | EmptyString => if contains a chars then EmptyString else String a EmptyString
      | r' => String a r'
      end
  end.

(** [str(n)] for an integer. *)
Definition of_int (n : Z) : string := NilZero.string_of_int (Z.to_int n).

(** Truth value of a string. *)
Definition truthy (s : string) : bool :=
  match s with EmptyString => false | _ => true end.

End PyStr.

(** ** Values, exceptions, traces *)

(** The Python values that the command inspects or stores. *)
Inductive value :=
| VNone
| VBool (b : bool)
| VInt (n : Z)
| VStr (s : string)
| VCallable (name : string)
| VObject (name : string).

Definition callable (v : value) : bool :=
  match v with VCallable _ => true | _ => false end.

Definition truthy (v : value) : bool :=
  match v with
  | VNone => false
  | VBool b => b
  | VInt n => negb (n =? 0)
  | VStr s => PyStr.truthy s
  | VCallable _ | VObject _ => true
  end.

(** Exception classes.  The last three derive from [BaseException] only;
    an [except Exception] clause does not catch them. *)
Inductive exn :=
| ImportError
| ModuleNotFoundError
| AttributeError
| ValueError
| OtherException (cls : string)
| SystemExit (code : Z)
| KeyboardInterrupt
| GeneratorExit.

Definition is_Exception (e : exn) : bool :=
  match e with
  | SystemExit _ | KeyboardInterrupt | GeneratorExit => false
  | _ => true
  end.

Definition is_AttributeError (e : exn) : bool :=
  match e with AttributeError => true | _ => false end.

Definition is_KeyboardInterrupt (e : exn) : bool :=
  match e with KeyboardInterrupt => true | _ => false end.

Inductive result (A : Type) :=
| Ret (a : A)
| Raise (e : exn).
Arguments Ret {A} a.
Arguments Raise {A} e.

(** What the command does to the outside, in order. *)
Inductive event :=
| EImport (name : string)
| EGlob (pattern : string)
| EPrint (line : string)
| ERun (config : gmap string value).

(** A computation: the events it performed and how it ended. *)
Definition M (A : Type) : Type := list event * result A.

Definition ret {A} (a : A) : M A := ([], Ret a).
Definition raise {A} (e : exn) : M A := ([], Raise e).
Definition emit (ev : event) : M unit := ([ev], Ret tt).

Definition bind {A B} (m : M A) (k : A -> M B) : M B :=
  match m with
  | (t, Ret a) => let '(t', r) := k a in ((t ++ t')%list, r)
  | (t, Raise e) => (t, Raise e)
  end.

(** [try: body / except <classes>: handler]. *)
Definition try_except {A} (catches : exn -> bool) (body handler : M A) : M A :=
  match body with
  | (t, Raise e) =>
      if catches e then let '(t', r) := handler in ((t ++ t')%list, r) else (t, Raise e)
  | finished => finished
  end.

(** Lifting an oracle's answer. *)
Definition lift {A} (r : result A) : M A := ([], r).

Declare Scope py_scope.
Delimit Scope py_scope with py.
Notation "x <- m ;; k" := (bind m (fun x => k))
  (at level 100, m at next level, right associativity) : py_scope.
Notation "m ;;; k" := (bind m (fun _ => k))
  (at level 100, right associativity) : py_scope.
Local Open Scope py_scope.

Definition trace {A} (m : M A) : list event := fst m.
Definition outcome {A} (m : M A) : result A := snd m.

Definition print (line : string) : M unit := emit (EPrint line).

(** [sys.exit(code)]. *)
Definition sys_exit {A} (code : Z) : M A := raise (SystemExit code).

(** ** The world *)

(** An imported module, seen through [getattr]: a value, [AttributeError]
    when the name is missing, or whatever a module-level [__getattr__]
    raises. *)
Record Module := { mod_getattr : string -> result value }.

(** An entry of the working directory.  [is_dir()] and [exists()] ask the
    file system and can fail, with [PermissionError] on a directory that may
    not be searched. *)
Record DirEntry := {
  entry_name : string;
  entry_is_dir : result bool;     (* [item.is_dir()] *)
  entry_has_init : result bool    (* [(item / '__init__.py').exists()] *)
}.

(** The answers of the outside.  Each oracle answers the same way whenever
    it is asked during one run: what an import, a glob or a directory
    listing gives does not depend on the probes made before it.
    [Path.cwd()] fails with [FileNotFoundError] when the working directory
    has been removed, and the listing fails when it may not be read. *)
Record World := {
  uvicorn_installed : bool;                        (* [uvicorn is not None] *)
  cwd : result string;                             (* [str(Path.cwd())] *)
  import_module : string -> result Module;         (* [importlib.import_module] *)
  glob : string -> result (list string);           (* [glob.glob] *)
  iterdir : result (list DirEntry);                (* [Path.cwd().iterdir()] *)
  uvicorn_run : gmap string value -> result unit   (* the call of [uvicorn.run] with the configuration *)
}.

(** [Path(p).name]: the last component of an absolute path. *)
Fixpoint path_name (p : string) : string :=
  match p with
  | EmptyString => EmptyString
  | String a r =>
      if Ascii.eqb a "/" || PyStr.contains "/" r then path_name r else p
  end.

(** [str(Path(p) / name)]. *)
Definition path_join (p name : string) : string :=
  if String.eqb p "/" then "/" +:+ name else p +:+ "/" +:+ name.

Definition do_import (w : World) (name : string) : M Module :=
  emit (EImport name) ;;; lift (import_module w name).

Definition do_glob (w : World) (pattern : string) : M (list string) :=
  emit (EGlob pattern) ;;; lift (glob w pattern).

(** [hasattr] turns [AttributeError], and nothing else, into [False]. *)
Definition hasattr (md : Module) (name : string) : M bool :=
  match mod_getattr md name with
  | Ret _ => ret true
  | Raise e => if is_AttributeError e then ret false else raise e
  end.

Definition getattr (md : Module) (name : string) : M value :=
  lift (mod_getattr md name).

(** [a, b = xs]. *)
Definition unpack2 (xs : list string) : M (string * string) :=
  match xs with
  | [a; b] => ret (a, b)
  | _ => raise ValueError
  end.

(** ** The application locator *)

Definition except_Exception {A} (body handler : M A) : M A :=
  try_except is_Exception body handler.

(** The [try] block of [check_asgi_module_direct]: import the module, look
    the attribute up, test that it is callable. *)
Definition check_asgi_module_direct_body (w : World) (module_path : string) : M bool :=
  parts <- unpack2 (PyStr.split1 ":" module_path) ;;
  let '(module_name, app_name) := parts in
  module <- do_import w module_name ;;
  has <- hasattr module app_name ;;
  if negb has then ret false
  else
    app <- getattr module app_name ;;
    ret (callable app).

(** [check_asgi_module_direct]: the block above under [except Exception: return False]. *)
Definition check_asgi_module_direct (w : World) (module_path : string) : M bool :=
  except_Exception (check_asgi_module_direct_body w module_path) (ret false).

(** The module name tried for a path that [glob] returned. *)
Definition path_to_module (path : string) : string :=
  PyStr.rstrip ".py" (PyStr.replace "\\" "." (PyStr.replace "/" "." path)).

(** The loop over the expansions of a wildcard candidate. *)
Fixpoint check_expansions (w : World) (app_name : string) (paths : list string)
  : M bool :=
  match paths with
  | [] => ret false
  | path :: rest =>
      let mod_name := path_to_module path in
      let test_path := mod_name +:+ ":" +:+ app_name in
      ok <- check_asgi_module_direct w test_path ;;
      if ok then ret true else check_expansions w app_name rest
  end.

(** The [try] block of [check_asgi_module]. *)
Definition check_asgi_module_body (w : World) (module_path : string) : M bool :=
  if negb (PyStr.contains ":" module_path) then ret false
  else
    parts <- unpack2 (PyStr.split1 ":" module_path) ;;
    let '(module_name, app_name) := parts in
    if PyStr.contains "*" module_name then
      let pattern := PyStr.replace "*" "*/" module_name in
      paths <- do_glob w pattern ;;
      check_expansions w app_name paths
    else check_asgi_module_direct w module_path.

Definition check_asgi_module (w : World) (module_path : string) : M bool :=
  except_Exception (check_asgi_module_body w module_path) (ret false).

(** The candidate list of [find_asgi_application], for a project name. *)
Definition candidates (project_name : string) : list string :=
  ([ "main:app"; "asgi:application"; "app:app"; "application:app";
     "*/main:app"; "*/asgi:application"; "*/app:app" ]
   ++ [ project_name +:+ ".main:app";
        project_name +:+ ".asgi:application";
        project_name +:+ "/main:app";
        project_name +:+ "/asgi:application" ])%list.

(** [for candidate in candidates: if check_asgi_module(candidate): return candidate],
    then [return None]. *)
Fixpoint first_match (w : World) (cs : list string) : M (option string) :=
  match cs with
  | [] => ret None
  | candidate :: rest =>
      ok <- check_asgi_module w candidate ;;
      if ok then ret (Some candidate) else first_match w rest
  end.

Definition find_asgi_application (w : World) : M (option string) :=
  dir <- lift (cwd w) ;;
  let project_name := path_name dir in
  first_match w (candidates project_name).

(** ** Starting the server *)

(** Modelled from the spec: the [Settings] class of [anal.core.config], which
    is imported by the command but is not part of the sources at hand.  The
    spec describes it as a configuration object optionally exposing [DEBUG],
    [SSL_KEYFILE] and [SSL_CERTFILE], read and never written.  An attribute
    the object lacks is [None] here; an instance is a plain object and
    therefore true in a condition. *)
Record Settings := {
  DEBUG : option value;
  SSL_KEYFILE : option value;
  SSL_CERTFILE : option value
}.

(** [obj.name] on a settings object. *)
Definition settings_attr (field : option value) : M value :=
  match field with
  | Some v => ret v
  | None => raise AttributeError
  end.

Definition option_truthy (s : option string) : bool :=
  match s with
  | Some x => PyStr.truthy x
  | None => false
  end.

(** The [log_level] entry: ["debug" if settings and settings.DEBUG else "info"]. *)
Definition log_level (settings : option Settings) : M string :=
  match settings with
  | None => ret "info"
  | Some s =>
      d <- settings_attr (DEBUG s) ;;
      ret (if truthy d then "debug" else "info")
  end.

(** The [if settings: ...] block that adds the two SSL entries. *)
Definition add_ssl (settings : option Settings) (config : gmap string value)
  : M (gmap string value) :=
  match settings with
  | None => ret config
  | Some s =>
      if bool_decide (is_Some (SSL_KEYFILE s)) && bool_decide (is_Some (SSL_CERTFILE s))
      then
        key <- settings_attr (SSL_KEYFILE s) ;;
        cert <- settings_attr (SSL_CERTFILE s) ;;
        if truthy key && truthy cert
        then ret (<["ssl_certfile" := cert]> (<["ssl_keyfile" := key]> config))
        else ret config
      else ret config
  end.

(** The dictionary literal [config = {...}]. *)
Definition base_config (app_module host : string) (port : Z) (reload : bool)
    (workers : Z) (level : string) : gmap string value :=
  <["access_log" := VBool true]>
  (<["log_level" := VStr level]>
  (<["workers" := VInt (if negb reload then workers else 1)]>
  (<["reload" := VBool reload]>
  (<["port" := VInt port]>
  (<["host" := VStr host]>
  (<["app" := VStr app_module]> ∅)))))).

(** [try: uvicorn.run(...) / except KeyboardInterrupt: print(...)].  The
    source writes the message with a doubled backslash, so a backslash and
    an [n] are printed, not a line break. *)
Definition serve (w : World) (config : gmap string value) : M unit :=
  try_except is_KeyboardInterrupt
    (emit (ERun config) ;;; lift (uvicorn_run w config))
    (print "\nServer stopped.").

Definition run_development_server (w : World)
    (host : string) (port : Z) (reload : bool) (workers : Z)
    (settings : option Settings) : M unit :=
  if negb (uvicorn_installed w) then
    print "Error: uvicorn is required to run the server." ;;;
    print "Install it with: pip install uvicorn[standard]" ;;;
    sys_exit 1
  else
    app_module <- find_asgi_application w ;;
    if negb (option_truthy app_module) then
      print "Error: Could not find ASGI application." ;;;
      print "Make sure you have a main.py or asgi.py file with an 'app' or 'application' variable." ;;;
      sys_exit 1
    else
      print ("Starting development server at http://" +:+ host +:+ ":" +:+ PyStr.of_int port) ;;;
      print "Quit the server with CONTROL-C." ;;;
      (if reload
       then print "Auto-reload is enabled. The server will restart when code changes."
       else ret tt) ;;;
      level <- log_level settings ;;
      let config := base_config (default "" app_module) host port reload workers level in
      config <- add_ssl settings config ;;
      serve w config.

(** ** The reload watch set *)

(** The loop of [get_reload_dirs].  The condition is evaluated left to
    right: [is_dir()] first, and [exists()] only for a directory that is
    neither hidden nor the cache. *)
Fixpoint reload_loop (dir : string) (items : list DirEntry) (reload_dirs : list string)
  : M (list string) :=
  match items with
  | [] => ret reload_dirs
  | item :: rest =>
      is_dir <- lift (entry_is_dir item) ;;
      if is_dir
         && negb (PyStr.startswith "." (entry_name item))
         && negb (String.eqb (entry_name item) "__pycache__")
      then
        has_init <- lift (entry_has_init item) ;;
        if has_init
        then reload_loop dir rest (reload_dirs ++ [path_join dir (entry_name item)])%list
        else reload_loop dir rest reload_dirs
      else reload_loop dir rest reload_dirs
  end.

(** [Path.cwd()] is asked twice, for the first element and for the listing. *)
Definition get_reload_dirs (w : World) : M (list string) :=
  first <- lift (cwd w) ;;
  dir <- lift (cwd w) ;;
  items <- lift (iterdir w) ;;
  reload_loop dir items [first].

(** ** Vocabulary of the statements *)

(** A candidate verifies when its check answers [True]; it is rejected when
    the check answers [False]. *)
Definition verifies (w : World) (candidate : string) : Prop :=
  outcome (check_asgi_module w candidate) = Ret true.

Definition rejected (w : World) (candidate : string) : Prop :=
  outcome (check_asgi_module w candidate) = Ret false.

(** A world whose imports, attribute lookups and globs fail with instances of
    [Exception] only: no module ends the interpreter while it is imported. *)
Definition raises_only_Exception {A} (r : result A) : Prop :=
  forall e, r = Raise e -> is_Exception e = true.

Definition well_behaved (w : World) : Prop :=
  (forall name, raises_only_Exception (import_module w name))
  /\ (forall name md attr,
        import_module w name = Ret md -> raises_only_Exception (mod_getattr md attr))
  /\ (forall pattern, raises_only_Exception (glob w pattern)).

(** Whatever leaves a check was raised by the world: by an import, by an
    attribute lookup or by the glob. *)
Definition raised_by_world (w : World) (e : exn) : Prop :=
  (exists name, import_module w name = Raise e)
  \/ (exists name md attr, import_module w name = Ret md /\ mod_getattr md attr = Raise e)
  \/ (exists pattern, glob w pattern = Raise e).

(** The resolved entry point of the spec: the module imports, it has the
    attribute, the attribute is callable. *)
Definition resolved_entry_point (w : World) (module_name app_name : string) : Prop :=
  exists md v,
    import_module w module_name = Ret md
    /\ mod_getattr md app_name = Ret v
    /\ callable v = true.

(** The configurations handed to the server runner, in order. *)
Definition runs (t : list event) : list (gmap string value) :=
  omap (fun ev => match ev with ERun config => Some config | _ => None end) t.

(** Events of the locator: imports and directory globs. *)
Definition is_probe (ev : event) : bool :=
  match ev with
  | EImport _ | EGlob _ => true
  | _ => false
  end.

(** The SSL pair that the settings configure: both attributes present and
    both true in a condition. *)
Definition ssl_configured (settings : option Settings) : option (value * value) :=
  match settings with
  | Some {| SSL_KEYFILE := Some key; SSL_CERTFILE := Some cert |} =>
      if truthy key && truthy cert then Some (key, cert) else None
  | _ => None
  end.

Definition hidden (item : DirEntry) : bool := PyStr.startswith "." (entry_name item).
Definition is_cache (item : DirEntry) : bool := String.eqb (entry_name item) "__pycache__".

(** An entry that belongs to the watch set: a directory, not hidden, not the
    cache, holding [__init__.py]. *)
Definition watched (item : DirEntry) : bool :=
  match entry_is_dir item, entry_has_init item with
  | Ret true, Ret true => negb (hidden item) && negb (is_cache item)
  | _, _ => false
  end.

(** What looking at one entry raises, if anything: [is_dir()], or the
    [exists()] that is reached for a directory neither hidden nor cache. *)
Definition entry_error (item : DirEntry) : option exn :=
  match entry_is_dir item with
  | Raise e => Some e
  | Ret false => None
  | Ret true =>
      if hidden item || is_cache item then None
      else match entry_has_init item with
           | Raise e => Some e
           | Ret _ => None
           end
  end.

(** A directory listing has distinct, non-empty names. *)
Definition listing_ok (items : list DirEntry) : Prop :=
  NoDup (map entry_name items) /\ Forall (fun item => entry_name item <> "") items.

(** The path of a directory entry, as [str(item)] gives it. *)
Definition entry_path (dir : string) (item : DirEntry) : string :=
  path_join dir (entry_name item).

(** The shape of the candidate list: module names, the attribute that goes
    with each, and the three groups. *)
Definition direct_modules : list string := ["main"; "asgi"; "app"; "application"].
Definition nested_modules : list string := ["main"; "asgi"; "app"].
Definition project_modules : list string := ["main"; "asgi"].

Definition conventional_attribute (module_name : string) : string :=
  if String.eqb module_name "asgi" then "application" else "app".

Definition entry_of (module_name : string) : string :=
  module_name +:+ ":" +:+ conventional_attribute module_name.

Definition direct_group : list string := entry_of <$> direct_modules.
Definition nested_group : list string :=
  (fun m => "*/" +:+ entry_of m) <$> nested_modules.
Definition project_group (project_name : string) : list string :=
  (((fun m => project_name +:+ "." +:+ entry_of m) <$> project_modules)
   ++ ((fun m => project_name +:+ "/" +:+ entry_of m) <$> project_modules))%list.

(** *** Sample projects *)

Module Sample.

Fixpoint assoc {A} (k : string) (l : list (string * A)) : option A :=
  match l with
  | [] => None
  | (k', v) :: rest => if String.eqb k k' then Some v else assoc k rest
  end.

(** A module with the given attributes and nothing else. *)
Definition module_with (attrs : list (string * value)) : Module :=
  {| mod_getattr := fun name =>
       match assoc name attrs with
       | Some v => Ret v
       | None => Raise AttributeError
       end |}.

(** A project in [dir]: importable modules (anything else is not found),
    answers of [glob] (anything else matches nothing), directory entries. *)
Definition project (dir : string) (mods : list (string * result Module))
    (globs : list (string * list string)) (items : list DirEntry) : World :=
  {| uvicorn_installed := true;
     cwd := Ret dir;
     import_module := fun name => default (Raise ModuleNotFoundError) (assoc name mods);
     glob := fun pattern => Ret (default [] (assoc pattern globs));
     iterdir := Ret items;
     uvicorn_run := fun _ => Ret tt |}.

Definition app_module : Module := module_with [("app", VCallable "app")].
Definition application_module : Module :=
  module_with [("application", VCallable "application")].

(** [main.py] and [asgi.py], both with a callable. *)
Definition both : World :=
  project "/home/dev/shop"
    [("main", Ret app_module); ("asgi", Ret application_module)] [] [].

(** Only a nested package [pkg/main/] with a callable [app]. *)
Definition nested : World :=
  project "/home/dev/shop" [("pkg.main", Ret app_module)]
    [("*//main", ["pkg/main"])] [].

(** [main.py] holds [app = 42]; [asgi.py] is fine. *)
Definition plain_value : World :=
  project "/home/dev/shop"
    [("main", Ret (module_with [("app", VInt 42)])); ("asgi", Ret application_module)]
    [] [].

(** [main.py] calls [sys.exit(0)] when imported. *)
Definition exiting : World :=
  project "/home/dev/shop" [("main", Raise (SystemExit 0))] [] [].


(** Nothing importable; a few directory entries. *)
Definition empty : World :=
  project "/home/dev/shop" [] []
    [ {| entry_name := "pkg"; entry_is_dir := Ret true; entry_has_init := Ret true |};
      {| entry_name := ".tox"; entry_is_dir := Ret true; entry_has_init := Ret true |};
      {| entry_name := "__pycache__"; entry_is_dir := Ret true; entry_has_init := Ret true |};
      {| entry_name := "docs"; entry_is_dir := Ret true; entry_has_init := Ret false |};
      {| entry_name := "setup.py"; entry_is_dir := Ret false; entry_has_init := Ret false |} ].

(** Settings with both SSL attributes present, the key file left empty. *)
Definition ssl_unset : Settings :=
  {| DEBUG := Some (VBool false);
     SSL_KEYFILE := Some (VStr "");
     SSL_CERTFILE := Some (VStr "cert.pem") |}.

Definition ssl_set : Settings :=
  {| DEBUG := Some (VBool true);
     SSL_KEYFILE := Some (VStr "key.pem");
     SSL_CERTFILE := Some (VStr "cert.pem") |}.

End Sample.

(** *** Vocabulary of the further properties *)

(** The last character of a string, if it has one. *)
Fixpoint last_char (s : string) : option ascii :=
  match s with
  | EmptyString => None
  | String a r =>
      match r with
      | EmptyString => Some a
      | String _ _ => last_char r
      end
  end.


(** The events of checking the given candidates one after the other. *)
Definition probes_of (w : World) (cs : list string) : list event :=
  concat ((fun c => trace (check_asgi_module w c)) <$> cs).

(** The keys of the dictionary literal, and the two SSL keys. *)
Definition base_keys : gset string :=
  list_to_set ["app"; "host"; "port"; "reload"; "workers"; "log_level"; "access_log"].
Definition ssl_keys : gset string := list_to_set ["ssl_keyfile"; "ssl_certfile"].

(** What the settings make of [log_level] when [DEBUG] can be read. *)
Definition level_of (settings : option Settings) : string :=
  match settings with
  | Some {| DEBUG := Some d |} => if truthy d then "debug" else "info"
  | _ => "info"
  end.

(** [settings.DEBUG] can be read: there are no settings, or [DEBUG] is there. *)
Definition debug_readable (settings : option Settings) : Prop :=
  forall s, settings = Some s -> is_Some (DEBUG s).

(** The start banner, with the reload line when [reload] is set. *)
Definition banner (host : string) (port : Z) (reload : bool) : list event :=
  ([EPrint ("Starting development server at http://" +:+ host +:+ ":" +:+ PyStr.of_int port);
    EPrint "Quit the server with CONTROL-C."]
   ++ if reload
      then [EPrint "Auto-reload is enabled. The server will restart when code changes."]
      else [])%list.

(** The configuration built for a located application. *)
Definition final_config (app_module host : string) (port : Z) (reload : bool)
    (workers : Z) (settings : option Settings) : gmap string value :=
  let config := base_config app_module host port reload workers (level_of settings) in
  match ssl_configured settings with
  | Some (key, cert) => <["ssl_certfile" := cert]> (<["ssl_keyfile" := key]> config)
  | None => config
  end.

Module Scenario.

(** The same project as [Sample.both], without [uvicorn]. *)
Definition no_uvicorn : World :=
  {| uvicorn_installed := false;
     cwd := cwd Sample.both;
     import_module := import_module Sample.both;
     glob := glob Sample.both;
     iterdir := iterdir Sample.both;
     uvicorn_run := uvicorn_run Sample.both |}.

(** The same project, the server being stopped with CONTROL-C. *)
Definition interrupted : World :=
  {| uvicorn_installed := true;
     cwd := cwd Sample.both;
     import_module := import_module Sample.both;
     glob := glob Sample.both;
     iterdir := iterdir Sample.both;
     uvicorn_run := fun _ => Raise KeyboardInterrupt |}.

(** Two packages below the working directory; only the second has a
    callable [app] in its [main]. *)
Definition two_packages (paths : list string) : World :=
  Sample.project "/home/dev/shop"
    [("api.main", Ret (Sample.module_with [("app", VInt 0)]));
     ("web.main", Ret Sample.app_module)]
    [("*//main", paths)] [].

(** [main.py] calls [sys.exit(0)] when imported; [asgi.py] and [app.py]
    are fine. *)
Definition exiting_first : World :=
  Sample.project "/home/dev/shop"
    [("main", Raise (SystemExit 0));
     ("asgi", Ret Sample.application_module);
     ("app", Ret Sample.app_module)]
    [] [].

(** The same project as [Sample.both], started from a working directory
    that has been removed. *)
Definition gone : World :=
  {| uvicorn_installed := true;
     cwd := Raise (OtherException "FileNotFoundError");
     import_module := import_module Sample.both;
     glob := glob Sample.both;
     iterdir := Raise (OtherException "FileNotFoundError");
     uvicorn_run := uvicorn_run Sample.both |}.

(** A package beside a subdirectory that may not be searched. *)
Definition unsearchable : World :=
  Sample.project "/home/dev/shop" [] []
    [ {| entry_name := "pkg"; entry_is_dir := Ret true; entry_has_init := Ret true |};
      {| entry_name := "private"; entry_is_dir := Ret true;
         entry_has_init := Raise (OtherException "PermissionError") |} ].

(** Settings on which [DEBUG] is missing. *)
Definition no_debug : Settings :=
  {| DEBUG := None; SSL_KEYFILE := None; SSL_CERTFILE := None |}.

End Scenario.

(** * Properties *)

(** ** The monad *)

Section Monad.
Context {A B : Type}.

Lemma outcome_bind (m : M A) (k : A -> M B) :
  outcome (bind m k)
  = match outcome m with Ret a => outcome (k a) | Raise e => Raise e end.
Proof. destruct m as [t [a|e]]; simpl; [destruct (k a)|]; reflexivity. Qed.

Lemma trace_bind (m : M A) (k : A -> M B) :
  trace (bind m k)
  = (trace m ++ match outcome m with Ret a => trace (k a) | Raise _ => [] end)%list.
Proof.
  destruct m as [t [a|e]]; simpl; [destruct (k a); reflexivity|].
  symmetry; apply app_nil_r.
Qed.

Lemma outcome_try (catches : exn -> bool) (body handler : M A) :
  outcome (try_except catches body handler)
  = match outcome body with
    | Ret a => Ret a
    | Raise e => if catches e then outcome handler else Raise e
    end.
Proof.
  destruct body as [t [a|e]]; simpl; [reflexivity|].
  destruct (catches e); [destruct handler|]; reflexivity.
Qed.

Lemma trace_try (catches : exn -> bool) (body handler : M A) :
  trace (try_except catches body handler)
  = (trace body
     ++ match outcome body with
        | Ret _ => []
        | Raise e => if catches e then trace handler else []
        end)%list.
Proof.
  destruct body as [t [a|e]]; simpl; [symmetry; apply app_nil_r|].
  destruct (catches e); [destruct handler; reflexivity|].
  symmetry; apply app_nil_r.
Qed.

Lemma surjective_run (m : M A) : m = (trace m, outcome m).
Proof. destruct m; reflexivity. Qed.

Lemma bind_ret_l (a : A) (k : A -> M B) : bind (ret a) k = k a.
Proof. unfold bind, ret. destruct (k a); reflexivity. Qed.
End Monad.

(** [except Exception: return False] around a block. *)
Lemma outcome_guarded (body : M bool) :
  outcome (except_Exception body (ret false))
  = match outcome body with
    | Ret b => Ret b
    | Raise e => if is_Exception e then Ret false else Raise e
    end.
Proof. unfold except_Exception. rewrite outcome_try. reflexivity. Qed.

Lemma trace_guarded (body : M bool) :
  trace (except_Exception body (ret false)) = trace body.
Proof.
  unfold except_Exception. rewrite trace_try.
  destruct (outcome body) as [b|e]; [|destruct (is_Exception e)];
    simpl; apply app_nil_r.
Qed.

Lemma guarded_raises_only_base (body : M bool) (e : exn) :
  outcome (except_Exception body (ret false)) = Raise e -> is_Exception e = false.
Proof.
  rewrite outcome_guarded.
  destruct (outcome body) as [b|e']; [discriminate|].
  destruct (is_Exception e') eqn:He'; [discriminate|].
  intros [= <-]. exact He'.
Qed.

(** ** Python strings at work *)

Example split_at_first_separator : PyStr.split1 ":" "pkg.main:app:x" = ["pkg.main"; "app:x"].
Proof. reflexivity. Qed.

Example split_without_separator : PyStr.split1 ":" "main" = ["main"].
Proof. reflexivity. Qed.

Example wildcard_pattern : PyStr.replace "*" "*/" "*/main" = "*//main".
Proof. reflexivity. Qed.

Example module_of_path : path_to_module "pkg/main" = "pkg.main".
Proof. reflexivity. Qed.

(** [rstrip] takes a set of characters, not a suffix. *)
Example module_of_path_strips_characters : path_to_module "pkg/app" = "pkg.a".
Proof. reflexivity. Qed.

Example project_name_of_cwd : path_name "/home/dev/shop" = "shop".
Proof. reflexivity. Qed.

Example port_in_message : PyStr.of_int 8000 = "8000".
Proof. reflexivity. Qed.

(** ** Verifying one candidate *)

Lemma split1_without (c : ascii) (s : string) :
  PyStr.contains c s = false -> PyStr.split1 c s = [s].
Proof.
  induction s as [|a r IH]; [reflexivity|].
  simpl. intros Hno. apply orb_false_elim in Hno as [Ha Hr].
  rewrite Ha, (IH Hr). reflexivity.
Qed.

(** What [check_asgi_module_direct] does, case by case. *)
Lemma check_direct_unsplit (w : World) (module_path : string) :
  PyStr.contains ":" module_path = false ->
  check_asgi_module_direct w module_path = ([], Ret false).
Proof.
  intros Hno. unfold check_asgi_module_direct, check_asgi_module_direct_body.
  rewrite (split1_without _ _ Hno). reflexivity.
Qed.

Lemma split1_contains (c : ascii) (s : string) :
  PyStr.contains c s = true ->
  exists before after, PyStr.split1 c s = [before; after].
Proof.
  induction s as [|a r IH]; simpl; [discriminate|].
  destruct (Ascii.eqb a c); simpl.
  - intros _. eauto.
  - intros Hr. destruct (IH Hr) as (x & y & ->). eauto.
Qed.

Lemma check_direct_import_fails (w : World) (module_path m a : string) (e : exn) :
  PyStr.split1 ":" module_path = [m; a] ->
  import_module w m = Raise e ->
  check_asgi_module_direct w module_path
  = ([EImport m], if is_Exception e then Ret false else Raise e).
Proof.
  intros Hsplit Himp.
  unfold check_asgi_module_direct, check_asgi_module_direct_body, do_import.
  rewrite Hsplit. simpl. rewrite Himp. simpl.
  unfold except_Exception, try_except. destruct (is_Exception e); reflexivity.
Qed.

Lemma check_direct_attribute (w : World) (module_path m a : string) (md : Module) :
  PyStr.split1 ":" module_path = [m; a] ->
  import_module w m = Ret md ->
  check_asgi_module_direct w module_path
  = ([EImport m],
     match mod_getattr md a with
     | Ret v => Ret (callable v)
     | Raise e => if is_Exception e then Ret false else Raise e
     end).
Proof.
  intros Hsplit Himp.
  unfold check_asgi_module_direct, check_asgi_module_direct_body, do_import.
  rewrite Hsplit. simpl. rewrite Himp. simpl.
  unfold hasattr, getattr. destruct (mod_getattr md a) as [v|e] eqn:Hattr; simpl.
  - reflexivity.
  - destruct e; reflexivity.
Qed.

(** A direct check that says yes has found a resolved entry point. *)
Lemma check_direct_true (w : World) (module_path : string) :
  outcome (check_asgi_module_direct w module_path) = Ret true ->
  exists m a,
    PyStr.split1 ":" module_path = [m; a] /\ resolved_entry_point w m a.
Proof.
  destruct (PyStr.contains ":" module_path) eqn:Hcolon.
  - destruct (split1_contains _ _ Hcolon) as (m & a & Hsplit).
    destruct (import_module w m) as [md|e] eqn:Himp.
    + rewrite (check_direct_attribute w _ m a md Hsplit Himp). simpl.
      destruct (mod_getattr md a) as [v|e] eqn:Hattr.
      * intros [= Hcall]. exists m, a. split; [assumption|].
        exists md, v. auto.
      * destruct (is_Exception e); discriminate.
    + rewrite (check_direct_import_fails w _ m a e Hsplit Himp). simpl.
      destruct (is_Exception e); discriminate.
  - rewrite (check_direct_unsplit w _ Hcolon). discriminate.
Qed.

(** The direct check lets nothing escape that derives from [Exception], and
    its events are imports. *)
Lemma check_direct_probes (w : World) (module_path : string) :
  Forall (fun ev => is_probe ev = true) (trace (check_asgi_module_direct w module_path)).
Proof.
  destruct (PyStr.contains ":" module_path) eqn:Hcolon.
  - destruct (split1_contains _ _ Hcolon) as (m & a & Hsplit).
    destruct (import_module w m) as [md|e] eqn:Himp.
    + rewrite (check_direct_attribute w _ m a md Hsplit Himp). repeat constructor.
    + rewrite (check_direct_import_fails w _ m a e Hsplit Himp). repeat constructor.
  - rewrite (check_direct_unsplit w _ Hcolon). constructor.
Qed.

Lemma check_expansions_probes (w : World) (app_name : string) (paths : list string) :
  Forall (fun ev => is_probe ev = true) (trace (check_expansions w app_name paths)).
Proof.
  induction paths as [|path rest IH]; simpl; [constructor|].
  rewrite trace_bind. apply Forall_app. split; [apply check_direct_probes|].
  destruct (outcome _) as [[|]|e]; [constructor|exact IH|constructor].
Qed.

Lemma check_probes (w : World) (module_path : string) :
  Forall (fun ev => is_probe ev = true) (trace (check_asgi_module w module_path)).
Proof.
  unfold check_asgi_module. rewrite trace_guarded. unfold check_asgi_module_body.
  destruct (PyStr.contains ":" module_path) eqn:Hcolon; cbn [negb]; [|constructor].
  destruct (split1_contains _ _ Hcolon) as (m & a & ->).
  change (unpack2 [m; a]) with (ret (m, a)). rewrite bind_ret_l.
  destruct (PyStr.contains "*" m); cbv beta iota zeta; [|apply check_direct_probes].
  rewrite trace_bind. apply Forall_app. split.
  - unfold do_glob. simpl.
    destruct (glob w (PyStr.replace "*" "*/" m)); repeat constructor.
  - destruct (outcome _) as [paths|e]; [apply check_expansions_probes|constructor].
Qed.

(** The loop over the expansions says yes only for a resolved entry point. *)
Lemma check_expansions_true (w : World) (app_name : string) (paths : list string) :
  outcome (check_expansions w app_name paths) = Ret true ->
  exists path m a,
    path ∈ paths
    /\ PyStr.split1 ":" (path_to_module path +:+ ":" +:+ app_name) = [m; a]
    /\ resolved_entry_point w m a.
Proof.
  induction paths as [|path rest IH]; simpl; [discriminate|].
  rewrite outcome_bind.
  destruct (outcome (check_asgi_module_direct w _)) as [[|]|e] eqn:Hfirst.
  - intros _. destruct (check_direct_true _ _ Hfirst) as (m & a & Hsplit & Hres).
    exists path, m, a. split; [apply list_elem_of_here|auto].
  - intros Hrest. destruct (IH Hrest) as (p & m & a & Hin & Hsplit & Hres).
    exists p, m, a. split; [apply list_elem_of_further; assumption|auto].
  - discriminate.
Qed.

(** What a candidate that verifies stands for: a resolved entry point at the
    candidate itself when it is direct, at one of its expansions when it
    carries the wildcard. *)
Lemma verifies_inv (w : World) (candidate : string) :
  verifies w candidate ->
  exists m a,
    PyStr.split1 ":" candidate = [m; a]
    /\ if PyStr.contains "*" m
       then exists paths path m' a',
           glob w (PyStr.replace "*" "*/" m) = Ret paths
           /\ path ∈ paths
           /\ PyStr.split1 ":" (path_to_module path +:+ ":" +:+ a) = [m'; a']
           /\ resolved_entry_point w m' a'
       else resolved_entry_point w m a.
Proof.
  unfold verifies, check_asgi_module. rewrite outcome_guarded.
  unfold check_asgi_module_body.
  destruct (PyStr.contains ":" candidate) eqn:Hcolon; cbn [negb].
  2:{ discriminate. }
  destruct (split1_contains _ _ Hcolon) as (m & a & Hsplit). rewrite Hsplit.
  change (unpack2 [m; a]) with (ret (m, a)). rewrite bind_ret_l.
  intros Hv. exists m, a. split; [reflexivity|]. revert Hv.
  destruct (PyStr.contains "*" m); cbv beta iota zeta.
  - rewrite outcome_bind. unfold do_glob at 1. rewrite outcome_bind. simpl.
    destruct (glob w (PyStr.replace "*" "*/" m)) as [paths|e].
    + destruct (outcome (check_expansions w a paths)) as [[|]|e] eqn:Hexp.
      * intros _. destruct (check_expansions_true _ _ _ Hexp)
          as (path & m' & a' & Hin & Hsplit' & Hres).
        exists paths, path, m', a'. auto.
      * discriminate.
      * destruct (is_Exception e); discriminate.
    + destruct (is_Exception e); discriminate.
  - destruct (outcome (check_asgi_module_direct w candidate)) as [[|]|e] eqn:Hd.
    + intros _. destruct (check_direct_true _ _ Hd) as (m' & a' & Hsplit' & Hres).
      rewrite Hsplit in Hsplit'. injection Hsplit' as <- <-. exact Hres.
    + discriminate.
    + destruct (is_Exception e); discriminate.
Qed.


Lemma check_direct_escape (w : World) (module_path : string) (e : exn) :
  outcome (check_asgi_module_direct w module_path) = Raise e -> raised_by_world w e.
Proof.
  destruct (PyStr.contains ":" module_path) eqn:Hcolon.
  - destruct (split1_contains _ _ Hcolon) as (m & a & Hsplit).
    destruct (import_module w m) as [md|e'] eqn:Himp.
    + rewrite (check_direct_attribute w _ m a md Hsplit Himp). cbn [outcome snd].
      destruct (mod_getattr md a) as [v|e'] eqn:Hattr; [discriminate|].
      destruct (is_Exception e'); [discriminate|].
      intros [= <-]. right; left. eauto.
    + rewrite (check_direct_import_fails w _ m a e' Hsplit Himp). cbn [outcome snd].
      destruct (is_Exception e'); [discriminate|].
      intros [= <-]. left. eauto.
  - rewrite (check_direct_unsplit w _ Hcolon). discriminate.
Qed.

Lemma check_expansions_escape (w : World) (app_name : string) (paths : list string)
    (e : exn) :
  outcome (check_expansions w app_name paths) = Raise e -> raised_by_world w e.
Proof.
  induction paths as [|path rest IH]; cbn [check_expansions]; [discriminate|].
  rewrite outcome_bind.
  destruct (outcome (check_asgi_module_direct w _)) as [[|]|e'] eqn:Hfirst.
  - discriminate.
  - exact IH.
  - intros [= <-]. exact (check_direct_escape _ _ _ Hfirst).
Qed.

Lemma check_escape (w : World) (module_path : string) (e : exn) :
  outcome (check_asgi_module w module_path) = Raise e -> raised_by_world w e.
Proof.
  unfold check_asgi_module. rewrite outcome_guarded. unfold check_asgi_module_body.
  destruct (PyStr.contains ":" module_path) eqn:Hcolon; cbn [negb]; [|discriminate].
  destruct (split1_contains _ _ Hcolon) as (m & a & ->).
  change (unpack2 [m; a]) with (ret (m, a)). rewrite bind_ret_l.
  destruct (PyStr.contains "*" m); cbv beta iota zeta.
  - rewrite outcome_bind. unfold do_glob at 1. rewrite outcome_bind. simpl.
    destruct (glob w (PyStr.replace "*" "*/" m)) as [paths|e'] eqn:Hglob.
    + destruct (outcome (check_expansions w a paths)) as [b|e'] eqn:Hexp; [discriminate|].
      destruct (is_Exception e'); [discriminate|].
      intros [= <-]. exact (check_expansions_escape _ _ _ _ Hexp).
    + destruct (is_Exception e'); [discriminate|].
      intros [= <-]. right; right. eauto.
  - destruct (outcome (check_asgi_module_direct w module_path)) as [b|e'] eqn:Hd;
      [discriminate|].
    destruct (is_Exception e'); [discriminate|].
    intros [= <-]. exact (check_direct_escape _ _ _ Hd).
Qed.

(** In a well-behaved world every check answers: a candidate that does not
    verify is rejected. *)
Lemma checks_decide (w : World) (candidate : string) :
  well_behaved w -> verifies w candidate \/ rejected w candidate.
Proof.
  intros (Himp & Hattr & Hglob). unfold verifies, rejected.
  destruct (outcome (check_asgi_module w candidate)) as [[|]|e] eqn:Hout; auto.
  exfalso.
  pose proof (guarded_raises_only_base _ _ Hout) as Hbase.
  destruct (check_escape _ _ _ Hout)
    as [(name & Hr)|[(name & md & attr & Hm & Hr)|(pattern & Hr)]].
  - rewrite (Himp _ _ Hr) in Hbase. discriminate.
  - rewrite (Hattr _ _ _ Hm _ Hr) in Hbase. discriminate.
  - rewrite (Hglob _ _ Hr) in Hbase. discriminate.
Qed.

(** ** The search *)

Lemma first_match_cons (w : World) (candidate : string) (rest : list string) :
  first_match w (candidate :: rest)
  = ((trace (check_asgi_module w candidate)
      ++ match outcome (check_asgi_module w candidate) with
         | Ret false => trace (first_match w rest)
         | _ => []
         end)%list,
     match outcome (check_asgi_module w candidate) with
     | Ret true => Ret (Some candidate)
     | Ret false => outcome (first_match w rest)
     | Raise e => Raise e
     end).
Proof.
  rewrite (surjective_run (first_match w (candidate :: rest))).
  cbn [first_match]. rewrite trace_bind, outcome_bind.
  destruct (outcome (check_asgi_module w candidate)) as [[|]|e]; reflexivity.
Qed.

Lemma first_match_skips (w : World) (pre rest : list string) :
  Forall (rejected w) pre ->
  outcome (first_match w (pre ++ rest)) = outcome (first_match w rest).
Proof.
  induction 1 as [|c pre Hc _ IH]; [reflexivity|].
  rewrite <- app_comm_cons, first_match_cons. cbn [outcome snd].
  rewrite Hc. exact IH.
Qed.

Lemma first_match_hit (w : World) (candidate : string) (rest : list string) :
  verifies w candidate ->
  outcome (first_match w (candidate :: rest)) = Ret (Some candidate).
Proof. intros Hv. rewrite first_match_cons. cbn [outcome snd]. rewrite Hv. reflexivity. Qed.

Lemma first_match_none (w : World) (cs : list string) :
  Forall (rejected w) cs -> outcome (first_match w cs) = Ret None.
Proof.
  intros H. rewrite <- (app_nil_r cs). rewrite (first_match_skips w cs [] H).
  reflexivity.
Qed.

(** Whatever the search returns is a candidate of the list, and it verified. *)
Lemma first_match_some (w : World) (cs : list string) (c : string) :
  outcome (first_match w cs) = Ret (Some c) -> c ∈ cs /\ verifies w c.
Proof.
  induction cs as [|x rest IH]; [discriminate|].
  rewrite first_match_cons. cbn [outcome snd].
  destruct (outcome (check_asgi_module w x)) as [[|]|e] eqn:Hx.
  - intros [= <-]. split; [apply list_elem_of_here|exact Hx].
  - intros Hrest. destruct (IH Hrest). split; [apply list_elem_of_further|]; assumption.
  - discriminate.
Qed.

Lemma first_match_probes (w : World) (cs : list string) :
  Forall (fun ev => is_probe ev = true) (trace (first_match w cs)).
Proof.
  induction cs as [|x rest IH]; [constructor|].
  rewrite first_match_cons. cbn [trace fst].
  apply Forall_app. split; [apply check_probes|].
  destruct (outcome (check_asgi_module w x)) as [[|]|e]; [constructor|exact IH|constructor].
Qed.

Lemma runs_probes (t : list event) :
  Forall (fun ev => is_probe ev = true) t -> runs t = [].
Proof.
  induction 1 as [|ev t Hev _ IH]; [reflexivity|].
  unfold runs in *. cbn [omap list_omap]. destruct ev; try discriminate; exact IH.
Qed.

(** The locator asks for the working directory first. *)
Lemma find_in_directory (w : World) (dir : string) :
  cwd w = Ret dir ->
  find_asgi_application w = first_match w (candidates (path_name dir)).
Proof.
  intros Hcwd. unfold find_asgi_application. rewrite Hcwd.
  change (lift (Ret dir)) with (@ret string dir). rewrite bind_ret_l.
  reflexivity.
Qed.

Lemma find_without_directory (w : World) (e : exn) :
  cwd w = Raise e -> find_asgi_application w = ([], Raise e).
Proof. intros Hcwd. unfold find_asgi_application. rewrite Hcwd. reflexivity. Qed.




(** ** Claims about the locator *)

(** C10.  A string without the [:] separator is rejected by
    [check_asgi_module]: the answer is [False], nothing is raised, and the
    trace is empty, so no import (and no directory glob) was attempted. *)
Theorem check_asgi_module_without_separator (w : World) (module_path : string) :
  PyStr.contains ":" module_path = false ->
  check_asgi_module w module_path = ([], Ret false).
Proof.
  intros Hno. unfold check_asgi_module, check_asgi_module_body.
  rewrite Hno. reflexivity.
Qed.

Lemma check_asgi_module_without_separator_witness :
  PyStr.contains ":" "main.app" = false
  /\ check_asgi_module Sample.both "main.app" = ([], Ret false).
Proof.
  split; [reflexivity|].
  apply (check_asgi_module_without_separator Sample.both "main.app").
  reflexivity.
Defined.




(** C2, as stated, fails: when importing [main] ends the interpreter, the
    locator does not return the first candidate that verifies,
    [asgi:application], although that one and [app:app] both verify. *)
Lemma exit_before_first_verifying_candidate :
  outcome (check_asgi_module Scenario.exiting_first "main:app") = Raise (SystemExit 0)
  /\ verifies Scenario.exiting_first "asgi:application"
  /\ verifies Scenario.exiting_first "app:app"
  /\ outcome (find_asgi_application Scenario.exiting_first) = Raise (SystemExit 0).
Proof. repeat split. Qed.

(** C2, amended.  When [Path.cwd()] answers, the first candidate of the
    priority order whose check does not answer [False] decides: if it
    verifies, [find_asgi_application] returns it, whatever verifies after
    it; if its check lets an exception escape, that exception is the
    result and no later candidate is returned.  Whenever [main:app]
    verifies, the result is [main:app]. *)
Theorem first_verifying_candidate_wins
    (w : World) (dir : string) (pre post : list string) (candidate : string) :
  cwd w = Ret dir ->
  candidates (path_name dir) = (pre ++ candidate :: post)%list ->
  Forall (rejected w) pre ->
  (verifies w candidate ->
   outcome (find_asgi_application w) = Ret (Some candidate))
  /\ (forall e,
        outcome (check_asgi_module w candidate) = Raise e ->
        outcome (find_asgi_application w) = Raise e)
  /\ (verifies w "main:app" ->
      outcome (find_asgi_application w) = Ret (Some "main:app")).
Proof.
  intros Hcwd Hsplit Hpre. rewrite (find_in_directory w dir Hcwd).
  split; [|split].
  - intros Hc. rewrite Hsplit, (first_match_skips w pre _ Hpre).
    apply first_match_hit, Hc.
  - intros e He. rewrite Hsplit, (first_match_skips w pre _ Hpre), first_match_cons.
    cbn [outcome snd]. rewrite He. reflexivity.
  - intros Hmain. unfold candidates. cbn [app]. apply first_match_hit, Hmain.
Qed.

Lemma first_verifying_candidate_wins_witness :
  verifies Sample.both "main:app"
  /\ verifies Sample.both "asgi:application"
  /\ outcome (find_asgi_application Sample.both) = Ret (Some "main:app").
Proof.
  split; [reflexivity|]. split; [reflexivity|].
  refine (proj1 (first_verifying_candidate_wins Sample.both "/home/dev/shop" []
                   (tail (candidates "shop")) "main:app" _ _ _) _).
  - reflexivity.
  - reflexivity.
  - constructor.
  - reflexivity.
Defined.



(** C1 fails on a wildcard candidate.  In a project whose only application
    is the nested package [pkg/main] the locator returns the pattern
    [*/main:app] itself: no module of that name can be imported, while the
    entry point that was verified is [pkg.main:app]. *)
Theorem wildcard_candidate_returned_unexpanded :
  find_asgi_application Sample.nested
  = ([EImport "main"; EImport "asgi"; EImport "app"; EImport "application";
      EGlob "*//main"; EImport "pkg.main"],
     Ret (Some "*/main:app"))
  /\ PyStr.split1 ":" "*/main:app" = ["*/main"; "app"]
  /\ import_module Sample.nested "*/main" = Raise ModuleNotFoundError
  /\ ~ resolved_entry_point Sample.nested "*/main" "app"
  /\ resolved_entry_point Sample.nested "pkg.main" "app".
Proof.
  split; [reflexivity|]. split; [reflexivity|]. split; [reflexivity|]. split.
  - intros (md & v & Himp & _). discriminate.
  - exists Sample.app_module, (VCallable "app"). repeat split.
Qed.

(** What does hold of every returned value: it is a candidate of the list,
    and it verified, at itself or at one of its expansions. *)
Lemma find_returns_verified (w : World) (candidate : string) :
  outcome (find_asgi_application w) = Ret (Some candidate) ->
  exists dir,
    cwd w = Ret dir
    /\ candidate ∈ candidates (path_name dir) /\ verifies w candidate.
Proof.
  destruct (cwd w) as [dir|e] eqn:Hcwd.
  - rewrite (find_in_directory w dir Hcwd). intros Hout.
    exists dir. split; [reflexivity|]. exact (first_match_some _ _ _ Hout).
  - rewrite (find_without_directory w e Hcwd). discriminate.
Qed.

Lemma find_probes (w : World) :
  Forall (fun ev => is_probe ev = true) (trace (find_asgi_application w)).
Proof.
  destruct (cwd w) as [dir|e] eqn:Hcwd.
  - rewrite (find_in_directory w dir Hcwd). apply first_match_probes.
  - rewrite (find_without_directory w e Hcwd). constructor.
Qed.

(** ** Starting the server *)

Lemma runs_app (t1 t2 : list event) : runs (t1 ++ t2) = (runs t1 ++ runs t2)%list.
Proof. unfold runs. apply omap_app. Qed.

Lemma runs_bind {A B} (m : M A) (k : A -> M B) :
  runs (trace (bind m k))
  = (runs (trace m)
     ++ match outcome m with Ret a => runs (trace (k a)) | Raise _ => [] end)%list.
Proof. rewrite trace_bind, runs_app. destruct (outcome m); reflexivity. Qed.

Lemma elem_of_runs (t : list event) (config : gmap string value) :
  config ∈ runs t <-> ERun config ∈ t.
Proof.
  unfold runs. rewrite list_elem_of_omap. split.
  - intros (ev & Hin & Hev). destruct ev; try discriminate.
    injection Hev as ->. exact Hin.
  - intros Hin. exists (ERun config). auto.
Qed.

Lemma find_runs_nothing (w : World) : runs (trace (find_asgi_application w)) = [].
Proof. apply runs_probes, find_probes. Qed.

Lemma runs_serve (w : World) (config : gmap string value) :
  runs (trace (serve w config)) = [config].
Proof.
  unfold serve. rewrite trace_try. simpl.
  destruct (uvicorn_run w config) as [[]|e]; [reflexivity|].
  simpl. destruct (is_KeyboardInterrupt e); reflexivity.
Qed.

(** The SSL block never raises, and it leaves every other key alone. *)
Lemma add_ssl_spec (settings : option Settings) (config : gmap string value) :
  add_ssl settings config
  = ([], Ret
       match settings with
       | Some {| SSL_KEYFILE := Some key; SSL_CERTFILE := Some cert |} =>
           if truthy key && truthy cert
           then <["ssl_certfile" := cert]> (<["ssl_keyfile" := key]> config)
           else config
       | _ => config
       end).
Proof.
  destruct settings as [[d [key|] [cert|]]|]; try reflexivity.
  unfold add_ssl. simpl. destruct (truthy key && truthy cert); reflexivity.
Qed.

(** The configurations that reach the server runner: none, or exactly the
    one built from the located application and the arguments. *)
Lemma runs_of_server (w : World) (host : string) (port : Z) (reload : bool)
    (workers : Z) (settings : option Settings) :
  runs (trace (run_development_server w host port reload workers settings))
  = if uvicorn_installed w then
      match outcome (find_asgi_application w) with
      | Ret app_module =>
          if option_truthy app_module then
            match outcome (log_level settings) with
            | Ret level =>
                match outcome
                        (add_ssl settings
                           (base_config (default "" app_module) host port reload
                              workers level)) with
                | Ret config => [config]
                | Raise _ => []
                end
            | Raise _ => []
            end
          else []
      | Raise _ => []
      end
    else [].
Proof.
  unfold run_development_server.
  destruct (uvicorn_installed w); cbn [negb]; [|reflexivity].
  rewrite runs_bind, find_runs_nothing. cbn [app].
  destruct (outcome (find_asgi_application w)) as [app_module|e]; [|reflexivity].
  destruct (option_truthy app_module); cbn [negb]; [|reflexivity].
  assert (Hlevel : runs (trace (log_level settings)) = []).
  { destruct settings as [[[d|] k c]|]; reflexivity. }
  repeat (rewrite runs_bind; cbn [print emit trace outcome fst snd runs omap list_omap app]).
  assert (Hreload : runs (trace (if reload
             then print "Auto-reload is enabled. The server will restart when code changes."
             else ret tt)) = []) by (destruct reload; reflexivity).
  assert (Hreload' : outcome (if reload
             then print "Auto-reload is enabled. The server will restart when code changes."
             else ret tt) = Ret tt) by (destruct reload; reflexivity).
  rewrite Hreload, Hreload', Hlevel. cbn [app].
  destruct (outcome (log_level settings)) as [level|e]; [|reflexivity].
  rewrite runs_bind, add_ssl_spec.
  cbn [trace outcome fst snd runs omap list_omap app].
  apply runs_serve.
Qed.

Lemma base_config_lookup (app_module host : string) (port : Z) (reload : bool)
    (workers : Z) (level : string) :
  let config := base_config app_module host port reload workers level in
  config !! "app" = Some (VStr app_module)
  /\ config !! "workers" = Some (VInt (if reload then 1 else workers))
  /\ config !! "ssl_keyfile" = None
  /\ config !! "ssl_certfile" = None.
Proof.
  unfold base_config. cbv zeta.
  split; [|split; [|split]]; repeat (rewrite lookup_insert_ne by discriminate).
  - apply lookup_insert_eq.
  - rewrite lookup_insert_eq. destruct reload; reflexivity.
  - apply lookup_empty.
  - apply lookup_empty.
Qed.

(** Every configuration that reaches the runner is the literal of the
    source, with the SSL pair added when the settings configure one. *)
Lemma config_of_run (w : World) (host : string) (port : Z) (reload : bool)
    (workers : Z) (settings : option Settings) (config : gmap string value) :
  config ∈ runs (trace (run_development_server w host port reload workers settings)) ->
  exists app_module level,
    outcome (find_asgi_application w) = Ret (Some app_module)
    /\ config
       = match ssl_configured settings with
         | Some (key, cert) =>
             <["ssl_certfile" := cert]>
               (<["ssl_keyfile" := key]>
                  (base_config app_module host port reload workers level))
         | None => base_config app_module host port reload workers level
         end.
Proof.
  rewrite runs_of_server.
  destruct (uvicorn_installed w); [|intros H; inversion H].
  destruct (outcome (find_asgi_application w)) as [[app_module|]|e];
    cbn [option_truthy]; try (intros H; inversion H; fail).
  destruct (PyStr.truthy app_module); [|intros H; inversion H].
  destruct (outcome (log_level settings)) as [level|e]; [|intros H; inversion H].
  rewrite add_ssl_spec. cbn [outcome snd default].
  intros Hin. apply list_elem_of_singleton in Hin. subst config.
  exists app_module, level. split; [reflexivity|].
  destruct settings as [[d [key|] [cert|]]|]; cbn [ssl_configured]; try reflexivity.
  destruct (truthy key && truthy cert); reflexivity.
Qed.

(** ** Claims about the server start *)

(** C3, as stated, fails: when importing [main] ends the interpreter with
    status 0, no candidate verifies, and yet the locator does not return
    [None] and the command ends with status 0 and without a message. *)
Lemma exit_without_message :
  (forall c, c ∈ candidates "shop" -> ~ verifies Sample.exiting c)
  /\ find_asgi_application Sample.exiting = ([EImport "main"], Raise (SystemExit 0))
  /\ run_development_server Sample.exiting "127.0.0.1" 8000 false 1 None
     = ([EImport "main"], Raise (SystemExit 0)).
Proof.
  split; [|split; reflexivity].
  intros c Hin Hv. unfold candidates in Hin. cbn [app] in Hin.
  repeat (apply elem_of_cons in Hin as [->|Hin]; [vm_compute in Hv; discriminate Hv|]).
  inversion Hin.
Qed.

(** C3, amended.  In every project state in which no candidate verifies, no
    configuration ever reaches [uvicorn.run].  When moreover [Path.cwd()]
    answers and every candidate is rejected (each check answers [False], so
    none lets an exception escape), [find_asgi_application] returns [None]
    and [run_development_server] prints its two-line explanation and leaves
    through [sys.exit(1)].  (Without [uvicorn] the command stops even
    earlier, with the other explanation and the same exit status.) *)
Theorem no_candidate_no_server (w : World) (host : string) (port : Z)
    (reload : bool) (workers : Z) (settings : option Settings) :
  ((forall dir c, cwd w = Ret dir -> c ∈ candidates (path_name dir) -> ~ verifies w c) ->
   runs (trace (run_development_server w host port reload workers settings)) = [])
  /\ (forall dir,
        cwd w = Ret dir ->
        Forall (rejected w) (candidates (path_name dir)) ->
        outcome (find_asgi_application w) = Ret None
        /\ outcome (run_development_server w host port reload workers settings)
           = Raise (SystemExit 1)
        /\ trace (run_development_server w host port reload workers settings)
           = if uvicorn_installed w
             then (trace (find_asgi_application w)
                   ++ [EPrint "Error: Could not find ASGI application.";
                       EPrint "Make sure you have a main.py or asgi.py file with an 'app' or 'application' variable."])%list
             else [EPrint "Error: uvicorn is required to run the server.";
                   EPrint "Install it with: pip install uvicorn[standard]"]).
Proof.
  split.
  - intros Hnone. rewrite runs_of_server.
    destruct (uvicorn_installed w); [|reflexivity].
    destruct (outcome (find_asgi_application w)) as [[app_module|]|e] eqn:Hfind;
      try reflexivity.
    exfalso. destruct (find_returns_verified w app_module Hfind) as (dir & Hcwd & Hin & Hv).
    exact (Hnone dir app_module Hcwd Hin Hv).
  - intros dir Hcwd Hall.
    assert (Hfind : outcome (find_asgi_application w) = Ret None).
    { rewrite (find_in_directory w dir Hcwd). apply first_match_none, Hall. }
    split; [exact Hfind|]. split.
    + unfold run_development_server.
      destruct (uvicorn_installed w); cbn [negb]; [|reflexivity].
      rewrite outcome_bind, Hfind. reflexivity.
    + unfold run_development_server.
      destruct (uvicorn_installed w); cbn [negb]; [|reflexivity].
      rewrite trace_bind, Hfind. reflexivity.
Qed.

Lemma no_candidate_no_server_witness :
  Forall (rejected Sample.empty) (candidates "shop")
  /\ outcome (run_development_server Sample.empty "127.0.0.1" 8000 false 1 None)
     = Raise (SystemExit 1).
Proof.
  assert (Hall : Forall (rejected Sample.empty) (candidates (path_name "/home/dev/shop"))).
  { repeat (constructor; [reflexivity|]). constructor. }
  split; [exact Hall|].
  exact (proj1 (proj2 (proj2 (no_candidate_no_server
                                Sample.empty "127.0.0.1" 8000 false 1 None)
                             "/home/dev/shop" eq_refl Hall))).
Defined.

(** C7.  In every configuration handed to the server runner the worker
    count is 1 when [reload] is set, whatever [workers] was, and is the
    given [workers] when [reload] is not set. *)
Theorem workers_forced_to_one_on_reload (w : World) (host : string) (port : Z)
    (reload : bool) (workers : Z) (settings : option Settings)
    (config : gmap string value) :
  config ∈ runs (trace (run_development_server w host port reload workers settings)) ->
  config !! "workers" = Some (VInt (if reload then 1 else workers)).
Proof.
  intros Hin. destruct (config_of_run _ _ _ _ _ _ _ Hin) as (app & level & _ & ->).
  destruct (base_config_lookup app host port reload workers level) as (_ & Hw & _).
  destruct (ssl_configured settings) as [[key cert]|];
    repeat (rewrite lookup_insert_ne by discriminate); exact Hw.
Qed.

Lemma workers_forced_to_one_on_reload_witness :
  let config := base_config "main:app" "127.0.0.1" 8000 true 4 "info" in
  runs (trace (run_development_server Sample.both "127.0.0.1" 8000 true 4 None))
  = [config]
  /\ config !! "workers" = Some (VInt 1).
Proof.
  cbv zeta.
  assert (Hruns : runs (trace (run_development_server
                                 Sample.both "127.0.0.1" 8000 true 4 None))
                  = [base_config "main:app" "127.0.0.1" 8000 true 4 "info"]).
  { rewrite runs_of_server. reflexivity. }
  split; [exact Hruns|].
  apply (workers_forced_to_one_on_reload
           Sample.both "127.0.0.1" 8000 true 4 None).
  rewrite Hruns. apply list_elem_of_here.
Defined.

(** C9, as stated, fails: settings on which both [SSL_KEYFILE] and
    [SSL_CERTFILE] are present, the key file being the empty string, give a
    configuration without the two SSL entries. *)
Lemma ssl_present_but_empty_is_not_passed :
  is_Some (SSL_KEYFILE Sample.ssl_unset)
  /\ is_Some (SSL_CERTFILE Sample.ssl_unset)
  /\ exists config,
      runs (trace (run_development_server
                     Sample.both "127.0.0.1" 8000 false 1 (Some Sample.ssl_unset)))
      = [config]
      /\ config !! "ssl_keyfile" = None
      /\ config !! "ssl_certfile" = None.
Proof.
  split; [eexists; reflexivity|]. split; [eexists; reflexivity|].
  exists (base_config "main:app" "127.0.0.1" 8000 false 1 "info").
  split; [rewrite runs_of_server; reflexivity|].
  apply base_config_lookup.
Qed.

(** C9, amended.  A configuration handed to the server runner has the
    entries [ssl_keyfile] and [ssl_certfile] exactly when a settings object
    is given, both [SSL_KEYFILE] and [SSL_CERTFILE] are present on it, and
    both are true in a condition (non-empty); the entries then carry those
    two values.  In every other case, in particular without settings,
    neither entry is there. *)
Theorem ssl_entries_iff_configured (w : World) (host : string) (port : Z)
    (reload : bool) (workers : Z) (settings : option Settings)
    (config : gmap string value) :
  config ∈ runs (trace (run_development_server w host port reload workers settings)) ->
  config !! "ssl_keyfile" = fst <$> ssl_configured settings
  /\ config !! "ssl_certfile" = snd <$> ssl_configured settings.
Proof.
  intros Hin. destruct (config_of_run _ _ _ _ _ _ _ Hin) as (app & level & _ & ->).
  destruct (base_config_lookup app host port reload workers level)
    as (_ & _ & Hkey & Hcert).
  destruct (ssl_configured settings) as [[key cert]|]; cbn [fmap option_fmap option_map fst snd].
  - split.
    + rewrite lookup_insert_ne by discriminate. apply lookup_insert_eq.
    + apply lookup_insert_eq.
  - split; assumption.
Qed.

Lemma ssl_entries_iff_configured_witness :
  exists config,
    runs (trace (run_development_server
                   Sample.both "0.0.0.0" 8443 false 2 (Some Sample.ssl_set)))
    = [config]
    /\ config !! "ssl_keyfile" = Some (VStr "key.pem")
    /\ config !! "ssl_certfile" = Some (VStr "cert.pem").
Proof.
  assert (Hruns : runs (trace (run_development_server
                                 Sample.both "0.0.0.0" 8443 false 2 (Some Sample.ssl_set)))
                  = [<["ssl_certfile" := VStr "cert.pem"]>
                       (<["ssl_keyfile" := VStr "key.pem"]>
                          (base_config "main:app" "0.0.0.0" 8443 false 2 "debug"))]).
  { rewrite runs_of_server. reflexivity. }
  eexists. split; [exact Hruns|].
  apply (ssl_entries_iff_configured
           Sample.both "0.0.0.0" 8443 false 2 (Some Sample.ssl_set)).
  rewrite Hruns. apply list_elem_of_here.
Defined.

(** ** The candidate list *)

(** C6, as stated, fails: [application] is tried as a top-level module but
    never below the wildcard; the wildcard candidates are three, for
    [main], [asgi] and [app]. *)
Lemma application_has_no_wildcard_candidate :
  "application:app" ∈ candidates "shop"
  /\ List.filter (PyStr.contains "*") (candidates "shop")
     = ["*/main:app"; "*/asgi:application"; "*/app:app"]
  /\ (forall app_name, "*/application:" +:+ app_name ∉ candidates "shop").
Proof.
  split; [|split].
  - do 3 apply list_elem_of_further. apply list_elem_of_here.
  - reflexivity.
  - intros app_name Hin. unfold candidates in Hin. cbn [app] in Hin.
    repeat (apply elem_of_cons in Hin as [Heq|Hin]; [discriminate Heq|]).
    inversion Hin.
Qed.

(** C6, amended.  The list searched by [find_asgi_application] is, in this
    order: the top-level modules [main], [asgi], [app], [application];
    then [main], [asgi], [app] (not [application]) one directory down,
    behind the wildcard marker; then the variants built on the base name of
    the working directory, with a dot and with a slash, for [main] and
    [asgi].  The attribute is [application] for [asgi] and [app] otherwise.
    Every top-level module other than [application] comes back as a
    wildcard candidate. *)
Theorem candidate_order (w : World) :
  find_asgi_application w
  = (dir <- lift (cwd w) ;;
     first_match w (direct_group ++ nested_group ++ project_group (path_name dir)))
  /\ (forall project_name,
        candidates project_name
        = (direct_group ++ nested_group ++ project_group project_name)%list)
  /\ nested_modules = List.filter (fun m => negb (String.eqb m "application")) direct_modules
  /\ (forall project_name m, m ∈ direct_modules -> m <> "application" ->
        "*/" +:+ entry_of m ∈ candidates project_name).
Proof.
  split; [|split; [|split]].
  - reflexivity.
  - reflexivity.
  - reflexivity.
  - intros project_name m Hm Hne. unfold direct_modules in Hm.
    rewrite !elem_of_cons in Hm.
    destruct Hm as [->|[->|[->|[->|Hm]]]].
    + do 4 apply list_elem_of_further. apply list_elem_of_here.
    + do 5 apply list_elem_of_further. apply list_elem_of_here.
    + do 6 apply list_elem_of_further. apply list_elem_of_here.
    + contradiction.
    + inversion Hm.
Qed.

(** ** The reload watch set *)

Lemma watched_iff (item : DirEntry) :
  watched item = true
  <-> entry_is_dir item = Ret true /\ hidden item = false
      /\ is_cache item = false /\ entry_has_init item = Ret true.
Proof.
  unfold watched.
  destruct (entry_is_dir item) as [[|]|e], (entry_has_init item) as [[|]|e'],
    (hidden item), (is_cache item); simpl; intuition congruence.
Qed.

(** The loop returns when looking at every entry succeeds, and then it has
    appended the watched entries; otherwise it raises what looking at some
    entry raised. *)
Lemma reload_loop_outcome (dir : string) (items : list DirEntry) (acc : list string) :
  match outcome (reload_loop dir items acc) with
  | Ret dirs =>
      Forall (fun item => entry_error item = None) items
      /\ dirs = (acc ++ (entry_path dir <$> List.filter watched items))%list
  | Raise e => exists item, item ∈ items /\ entry_error item = Some e
  end.
Proof.
  revert acc. induction items as [|item rest IH]; intros acc.
  - cbn. split; [constructor|]. symmetry. apply app_nil_r.
  - cbn [reload_loop List.filter]. rewrite outcome_bind. cbn [lift outcome snd].
    unfold watched at 1, entry_error at 1, hidden, is_cache.
    destruct (entry_is_dir item) as [[|]|e] eqn:Hd.
    + destruct (PyStr.startswith "." (entry_name item)) eqn:Hh;
        [|destruct (String.eqb (entry_name item) "__pycache__") eqn:Hc];
        cbn [andb negb orb].
      * specialize (IH acc).
        destruct (outcome (reload_loop dir rest acc)) as [dirs|e].
        -- destruct IH as [Hall ->]. split; [|destruct (entry_has_init item) as [[|]|]; reflexivity].
           constructor; [|exact Hall]. unfold entry_error, hidden. rewrite Hd, Hh. reflexivity.
        -- destruct IH as (x & Hx & He). exists x. split; [apply list_elem_of_further, Hx|exact He].
      * specialize (IH acc).
        destruct (outcome (reload_loop dir rest acc)) as [dirs|e].
        -- destruct IH as [Hall ->]. split; [|destruct (entry_has_init item) as [[|]|]; reflexivity].
           constructor; [|exact Hall]. unfold entry_error, hidden, is_cache.
           rewrite Hd, Hh, Hc. reflexivity.
        -- destruct IH as (x & Hx & He). exists x. split; [apply list_elem_of_further, Hx|exact He].
      * rewrite outcome_bind. cbn [lift outcome snd].
        destruct (entry_has_init item) as [[|]|e] eqn:Hi.
        -- specialize (IH (acc ++ [path_join dir (entry_name item)])%list).
           destruct (outcome (reload_loop dir rest _)) as [dirs|e].
           ++ destruct IH as [Hall ->]. split.
              ** constructor; [|exact Hall]. unfold entry_error, hidden, is_cache.
                 rewrite Hd, Hh, Hc, Hi. reflexivity.
              ** rewrite fmap_cons, <- app_assoc. reflexivity.
           ++ destruct IH as (x & Hx & He). exists x.
              split; [apply list_elem_of_further, Hx|exact He].
        -- specialize (IH acc).
           destruct (outcome (reload_loop dir rest acc)) as [dirs|e].
           ++ destruct IH as [Hall ->]. split; [|reflexivity].
              constructor; [|exact Hall]. unfold entry_error, hidden, is_cache.
              rewrite Hd, Hh, Hc, Hi. reflexivity.
           ++ destruct IH as (x & Hx & He). exists x.
              split; [apply list_elem_of_further, Hx|exact He].
        -- exists item. split; [apply list_elem_of_here|].
           unfold entry_error, hidden, is_cache. rewrite Hd, Hh, Hc, Hi. reflexivity.
    + cbn [andb]. specialize (IH acc).
      destruct (outcome (reload_loop dir rest acc)) as [dirs|e].
      * destruct IH as [Hall ->]. split; [|reflexivity].
        constructor; [|exact Hall]. unfold entry_error. rewrite Hd. reflexivity.
      * destruct IH as (x & Hx & He). exists x.
        split; [apply list_elem_of_further, Hx|exact He].
    + exists item. split; [apply list_elem_of_here|].
      unfold entry_error. rewrite Hd. reflexivity.
Qed.

Lemma get_reload_dirs_outcome (w : World) :
  outcome (get_reload_dirs w)
  = match cwd w, iterdir w with
    | Ret dir, Ret items => outcome (reload_loop dir items [dir])
    | Ret _, Raise e => Raise e
    | Raise e, _ => Raise e
    end.
Proof.
  unfold get_reload_dirs.
  destruct (cwd w) as [dir|e]; [|reflexivity].
  destruct (iterdir w) as [items|e]; [|reflexivity].
  change (lift (Ret dir)) with (@ret string dir).
  change (lift (Ret items)) with (@ret (list DirEntry) items).
  rewrite !bind_ret_l. reflexivity.
Qed.

Lemma append_nonempty_neq (p x : string) : x <> "" -> p +:+ x <> p.
Proof.
  intros Hx. induction p as [|a p IH]; simpl; [exact Hx|].
  intros [= H]. exact (IH H).
Qed.

Lemma path_join_inj (p n1 n2 : string) : path_join p n1 = path_join p n2 -> n1 = n2.
Proof.
  unfold path_join. destruct (String.eqb p "/").
  - apply (String.app_inj "/").
  - intros H. apply (String.app_inj p) in H. apply (String.app_inj "/") in H. exact H.
Qed.

Lemma path_join_neq (p n : string) : n <> "" -> path_join p n <> p.
Proof.
  intros Hn. unfold path_join. destruct (String.eqb p "/") eqn:Hp.
  - apply String.eqb_eq in Hp. subst p. simpl. intros [= H]. exact (Hn H).
  - apply append_nonempty_neq. discriminate.
Qed.

(** Two entries of a well-formed listing with the same name are the same. *)
Lemma same_name_same_entry (items : list DirEntry) (a b : DirEntry) :
  NoDup (entry_name <$> items) ->
  a ∈ items -> b ∈ items -> entry_name a = entry_name b -> a = b.
Proof.
  induction items as [|x rest IH]; intros Hnd Ha Hb Hname; [inversion Ha|].
  rewrite fmap_cons in Hnd. apply NoDup_cons in Hnd as [Hx Hrest].
  apply elem_of_cons in Ha as [->|Ha]; apply elem_of_cons in Hb as [->|Hb].
  - reflexivity.
  - exfalso. apply Hx. rewrite Hname. apply list_elem_of_fmap. eauto.
  - exfalso. apply Hx. rewrite <- Hname. apply list_elem_of_fmap. eauto.
  - apply IH; assumption.
Qed.

(** Membership in the list that a successful run returns. *)
Lemma watch_list_membership (dir : string) (items : list DirEntry) (item : DirEntry) :
  listing_ok items ->
  item ∈ items ->
  entry_path dir item ∈ dir :: (entry_path dir <$> List.filter watched items)
  <-> watched item = true.
Proof.
  intros [Hnd Hnames] Hitem. split.
  - intros Hin. apply elem_of_cons in Hin as [Hcwd|Hin].
    + exfalso. rewrite Forall_forall in Hnames.
      exact (path_join_neq _ _ (Hnames item Hitem) Hcwd).
    + apply list_elem_of_fmap in Hin as (other & Hpath & Hother).
      apply list_elem_of_In, filter_In in Hother as [Hother Hwatched].
      apply list_elem_of_In in Hother.
      apply path_join_inj in Hpath.
      rewrite (same_name_same_entry _ _ _ Hnd Hitem Hother Hpath). exact Hwatched.
  - intros Hwatched. apply list_elem_of_further, list_elem_of_fmap.
    exists item. split; [reflexivity|].
    apply list_elem_of_In, filter_In. split; [apply list_elem_of_In, Hitem|exact Hwatched].
Qed.

(** C8, as stated, fails: beside a subdirectory that may not be searched,
    [exists()] raises [PermissionError], and [get_reload_dirs] raises it
    too instead of returning a list. *)
Lemma unsearchable_directory_raises :
  cwd Scenario.unsearchable = Ret "/home/dev/shop"
  /\ (exists items, iterdir Scenario.unsearchable = Ret items)
  /\ get_reload_dirs Scenario.unsearchable
     = ([], Raise (OtherException "PermissionError")).
Proof. split; [reflexivity|]. split; [eexists; reflexivity|reflexivity]. Qed.

(** C8, amended.  Whenever [get_reload_dirs] returns, the list holds the
    working directory, and (the listing having distinct, non-empty names)
    an entry of the working directory is in it exactly when it is a
    directory, is not hidden, is not [__pycache__], and contains
    [__init__.py]; so every package directory is included, and hidden
    directories, cache directories, plain files and directories without
    the marker are not.  It returns exactly when [Path.cwd()], the listing,
    every [is_dir()] and every [exists()] it reaches answer; when one of
    them raises, [get_reload_dirs] raises that exception. *)
Theorem reload_watch_set (w : World) :
  match outcome (get_reload_dirs w) with
  | Ret dirs =>
      exists dir items,
        cwd w = Ret dir
        /\ iterdir w = Ret items
        /\ Forall (fun item => entry_error item = None) items
        /\ dir ∈ dirs
        /\ (listing_ok items ->
            forall item, item ∈ items ->
              (entry_path dir item ∈ dirs
               <-> entry_is_dir item = Ret true /\ hidden item = false
                   /\ is_cache item = false /\ entry_has_init item = Ret true))
  | Raise e =>
      cwd w = Raise e
      \/ (exists dir,
             cwd w = Ret dir
             /\ (iterdir w = Raise e
                 \/ exists items item,
                      iterdir w = Ret items /\ item ∈ items
                      /\ entry_error item = Some e))
  end.
Proof.
  rewrite get_reload_dirs_outcome.
  destruct (cwd w) as [dir|e]; [|left; reflexivity].
  destruct (iterdir w) as [items|e]; [|right; exists dir; auto].
  pose proof (reload_loop_outcome dir items [dir]) as Hloop.
  destruct (outcome (reload_loop dir items [dir])) as [dirs|e].
  - destruct Hloop as [Hall ->]. exists dir, items.
    split; [reflexivity|]. split; [reflexivity|]. split; [exact Hall|].
    split; [apply list_elem_of_here|].
    intros Hok item Hitem. rewrite <- watched_iff.
    exact (watch_list_membership dir items item Hok Hitem).
  - destruct Hloop as (item & Hitem & Herr). right. exists dir.
    split; [reflexivity|]. right. exists items, item. auto.
Qed.

Lemma reload_watch_set_witness :
  outcome (get_reload_dirs Sample.empty)
  = Ret ["/home/dev/shop"; "/home/dev/shop/pkg"]
  /\ exists dir, cwd Sample.empty = Ret dir
                 /\ dir ∈ ["/home/dev/shop"; "/home/dev/shop/pkg"].
Proof.
  split; [reflexivity|].
  pose proof (reload_watch_set Sample.empty) as Hset.
  change (outcome (get_reload_dirs Sample.empty))
    with (@Ret (list string) ["/home/dev/shop"; "/home/dev/shop/pkg"]) in Hset.
  destruct Hset as (dir & items & Hcwd & _ & _ & Hin & _).
  exists dir. split; assumption.
Defined.

(** * Further properties *)

(** ** The direct check *)

Lemma split1_join (c : ascii) (m a : string) :
  PyStr.contains c m = false -> PyStr.split1 c (m +:+ String c a) = [m; a].
Proof.
  induction m as [|x m IH]; simpl.
  - intros _. rewrite Ascii.eqb_refl. reflexivity.
  - intros Hno. apply orb_false_elim in Hno as [Hx Hm].
    rewrite Hx, (IH Hm). reflexivity.
Qed.

(** X1.  For a path [m:a] whose module part [m] has no colon,
    [check_asgi_module_direct] attempts exactly one import, that of [m], and
    answers [True] exactly when [m] imports, has the attribute [a], and the
    attribute is callable. *)
Theorem direct_check_decides_resolution (w : World) (m a : string) :
  PyStr.contains ":" m = false ->
  trace (check_asgi_module_direct w (m +:+ ":" +:+ a)) = [EImport m]
  /\ (outcome (check_asgi_module_direct w (m +:+ ":" +:+ a)) = Ret true
      <-> resolved_entry_point w m a).
Proof.
  intros Hm.
  assert (Hsplit : PyStr.split1 ":" (m +:+ ":" +:+ a) = [m; a])
    by exact (split1_join ":" m a Hm).
  destruct (import_module w m) as [md|e] eqn:Himp.
  - rewrite (check_direct_attribute w _ m a md Hsplit Himp).
    split; [reflexivity|]. cbn [outcome snd]. split.
    + destruct (mod_getattr md a) as [v|e] eqn:Hattr.
      * intros [= Hcall]. exists md, v. auto.
      * destruct (is_Exception e); discriminate.
    + intros (md' & v & Himp' & Hattr & Hcall).
      rewrite Himp in Himp'. injection Himp' as <-.
      rewrite Hattr, Hcall. reflexivity.
  - rewrite (check_direct_import_fails w _ m a e Hsplit Himp).
    split; [reflexivity|]. cbn [outcome snd]. split.
    + destruct (is_Exception e); discriminate.
    + intros (md & v & Himp' & _). rewrite Himp in Himp'. discriminate.
Qed.

Lemma direct_check_decides_resolution_witness :
  PyStr.contains ":" "pkg.main" = false
  /\ trace (check_asgi_module_direct Sample.nested "pkg.main:app") = [EImport "pkg.main"]
  /\ outcome (check_asgi_module_direct Sample.nested "pkg.main:app") = Ret true.
Proof.
  split; [reflexivity|].
  destruct (direct_check_decides_resolution Sample.nested "pkg.main" "app" eq_refl)
    as [Htrace Hiff].
  split; [exact Htrace|].
  apply Hiff. exists Sample.app_module, (VCallable "app"). repeat split.
Defined.

(** ** A project that raises instances of [Exception] only *)

Lemma module_with_raises (attrs : list (string * value)) (attr : string) :
  raises_only_Exception (mod_getattr (Sample.module_with attrs) attr).
Proof.
  intros e. cbn [mod_getattr Sample.module_with].
  destruct (Sample.assoc attr attrs); [discriminate|].
  intros [= <-]. reflexivity.
Qed.

Lemma two_packages_well_behaved (paths : list string) :
  well_behaved (Scenario.two_packages paths).
Proof.
  split; [|split].
  - intros name e. cbn.
    destruct (String.eqb name "api.main"); [discriminate|].
    destruct (String.eqb name "web.main"); [discriminate|].
    intros [= <-]. reflexivity.
  - intros name md attr. cbn.
    destruct (String.eqb name "api.main"); [intros [= <-]; apply module_with_raises|].
    destruct (String.eqb name "web.main"); [intros [= <-]; apply module_with_raises|].
    discriminate.
  - intros pattern e. cbn. discriminate.
Qed.

(** ** From a glob result to a module name *)

Lemma rstrip_last (chars s : string) (c : ascii) :
  last_char (PyStr.rstrip chars s) = Some c -> PyStr.contains c chars = false.
Proof.
  induction s as [|a r IH]; cbn [PyStr.rstrip]; [discriminate|].
  destruct (PyStr.rstrip chars r) as [|b r'] eqn:Hr.
  - destruct (PyStr.contains a chars) eqn:Ha; cbn [last_char]; [discriminate|].
    intros [= <-]. exact Ha.
  - cbn [last_char]. exact IH.
Qed.

Lemma rstrip_contains (chars s : string) (c : ascii) :
  PyStr.contains c (PyStr.rstrip chars s) = true -> PyStr.contains c s = true.
Proof.
  induction s as [|a r IH]; cbn [PyStr.rstrip]; [discriminate|].
  destruct (PyStr.rstrip chars r) as [|b r'] eqn:Hr.
  - destruct (PyStr.contains a chars); cbn [PyStr.contains]; [discriminate|].
    rewrite orb_false_r. intros ->. reflexivity.
  - cbn [PyStr.contains] in *. intros H. apply orb_true_iff in H as [->|H]; [reflexivity|].
    rewrite (IH H). apply orb_true_r.
Qed.

Lemma contains_append (c : ascii) (s t : string) :
  PyStr.contains c (s +:+ t) = PyStr.contains c s || PyStr.contains c t.
Proof.
  induction s as [|a r IH]; simpl; [reflexivity|].
  rewrite IH. apply orb_assoc.
Qed.

(** A replacement brings in no character that neither the string nor the
    new text holds. *)
Lemma replace_from_keeps_out (c : ascii) (old new s : string) (skip : nat) :
  PyStr.contains c new = false ->
  PyStr.contains c s = false ->
  PyStr.contains c (PyStr.replace_from old new s skip) = false.
Proof.
  intros Hnew. revert skip. induction s as [|a r IH]; intros skip Hs; [reflexivity|].
  cbn [PyStr.contains] in Hs. apply orb_false_elim in Hs as [Ha Hr].
  cbn [PyStr.replace_from]. destruct skip as [|k]; [|apply IH, Hr].
  destruct (PyStr.startswith old (String a r)).
  - rewrite contains_append, Hnew. apply IH, Hr.
  - cbn [PyStr.contains]. rewrite Ha. apply IH, Hr.
Qed.

(** Replacing a character removes it. *)
Lemma replace_char_removes (c : ascii) (new s : string) :
  PyStr.contains c new = false ->
  PyStr.contains c (PyStr.replace (String c EmptyString) new s) = false.
Proof.
  intros Hnew. unfold PyStr.replace.
  induction s as [|a r IH]; [reflexivity|].
  cbn [PyStr.replace_from PyStr.startswith].
  destruct (Ascii.eqb c a) eqn:Hca; cbn [andb].
  - rewrite contains_append, Hnew. exact IH.
  - cbn [PyStr.contains]. rewrite Ascii.eqb_sym, Hca. exact IH.
Qed.

(** X3.  The module name derived from a glob result never ends in a dot, a
    [p] or a [y], because [rstrip(".py")] removes characters and not a
    suffix, and it holds no slash. *)
Theorem module_of_path_is_stripped (path : string) :
  (forall c, last_char (path_to_module path) = Some c ->
             c <> "."%char /\ c <> "p"%char /\ c <> "y"%char)
  /\ PyStr.contains "/" (path_to_module path) = false.
Proof.
  unfold path_to_module. split.
  - intros c Hlast. apply rstrip_last in Hlast.
    cbn [PyStr.contains] in Hlast.
    repeat (apply orb_false_elim in Hlast as [?%Ascii.eqb_neq Hlast]).
    repeat split; congruence.
  - destruct (PyStr.contains "/" (PyStr.rstrip ".py" _)) eqn:Hc; [|reflexivity].
    apply rstrip_contains in Hc.
    assert (Hnone : PyStr.contains "/"
                      (PyStr.replace "\\" "." (PyStr.replace "/" "." path)) = false).
    { apply replace_from_keeps_out; [reflexivity|].
      apply (replace_char_removes "/" "."). reflexivity. }
    congruence.
Qed.

(** ** The search, event by event *)

Lemma first_match_trace_skips (w : World) (pre rest : list string) :
  Forall (rejected w) pre ->
  trace (first_match w (pre ++ rest))
  = (probes_of w pre ++ trace (first_match w rest))%list.
Proof.
  induction 1 as [|c pre Hc _ IH]; [reflexivity|].
  rewrite <- app_comm_cons, first_match_cons. cbn [trace fst].
  rewrite Hc, IH. unfold probes_of. rewrite fmap_cons. cbn [concat].
  apply app_assoc.
Qed.

(** X4.  When [Path.cwd()] answers, the locator checks the candidates in
    order and stops at the first one that verifies: its events are those of
    checking the rejected candidates and the one that verified, and nothing
    is imported or globbed for a later candidate.  When all are rejected,
    all are checked. *)
Theorem search_probes_up_to_first_match (w : World) (dir : string)
    (pre rest : list string) :
  cwd w = Ret dir ->
  candidates (path_name dir) = (pre ++ rest)%list ->
  Forall (rejected w) pre ->
  match rest with
  | [] => True
  | candidate :: _ => verifies w candidate
  end ->
  trace (find_asgi_application w) = probes_of w (pre ++ take 1 rest).
Proof.
  intros Hcwd Hsplit Hpre Hrest. rewrite (find_in_directory w dir Hcwd).
  rewrite Hsplit, (first_match_trace_skips w pre rest Hpre).
  unfold probes_of. rewrite fmap_app, concat_app. f_equal.
  destruct rest as [|c rest]; [reflexivity|].
  rewrite first_match_cons. cbn [trace fst take fmap list_fmap concat].
  rewrite Hrest. reflexivity.
Qed.

Lemma search_probes_up_to_first_match_witness :
  trace (find_asgi_application Sample.plain_value)
  = [EImport "main"; EImport "asgi"].
Proof.
  assert (Hrej : Forall (rejected Sample.plain_value) ["main:app"])
    by (constructor; [reflexivity|constructor]).
  exact (search_probes_up_to_first_match Sample.plain_value "/home/dev/shop"
           ["main:app"] (tail (candidates "shop")) eq_refl eq_refl Hrej eq_refl).
Defined.

(** X5.  The locator does nothing but import modules and glob directories:
    it prints nothing and hands nothing to the server runner. *)
Theorem locator_only_probes (w : World) (ev : event) :
  ev ∈ trace (find_asgi_application w) ->
  exists text, ev = EImport text \/ ev = EGlob text.
Proof.
  intros Hin.
  pose proof (find_probes w) as Hall.
  rewrite Forall_forall in Hall. specialize (Hall ev Hin).
  destruct ev as [name|pattern|line|config]; try discriminate; eauto.
Qed.

Lemma locator_only_probes_witness :
  EGlob "*//main" ∈ trace (find_asgi_application Sample.nested)
  /\ exists text, EGlob "*//main" = EImport text \/ EGlob "*//main" = EGlob text.
Proof.
  assert (Hin : EGlob "*//main" ∈ trace (find_asgi_application Sample.nested))
    by (do 4 apply list_elem_of_further; apply list_elem_of_here).
  split; [exact Hin|].
  exact (locator_only_probes Sample.nested (EGlob "*//main") Hin).
Defined.

Lemma first_match_escape (w : World) (cs : list string) (e : exn) :
  outcome (first_match w cs) = Raise e ->
  is_Exception e = false /\ raised_by_world w e.
Proof.
  induction cs as [|c rest IH]; [discriminate|].
  rewrite first_match_cons. cbn [outcome snd].
  destruct (outcome (check_asgi_module w c)) as [[|]|e'] eqn:Hc.
  - discriminate.
  - exact IH.
  - intros [= <-]. split.
    + exact (guarded_raises_only_base _ _ Hc).
    + exact (check_escape _ _ _ Hc).
Qed.

(** X6.  Whatever [find_asgi_application] raises was raised by
    [Path.cwd()], which is asked outside every [try], and then nothing was
    imported or globbed; or it is not an instance of [Exception] and was
    raised by an import, by an attribute lookup or by the glob. *)
Theorem locator_raises_only_what_escapes (w : World) (e : exn) :
  outcome (find_asgi_application w) = Raise e ->
  (cwd w = Raise e /\ trace (find_asgi_application w) = [])
  \/ (is_Exception e = false /\ raised_by_world w e).
Proof.
  destruct (cwd w) as [dir|e'] eqn:Hcwd.
  - rewrite (find_in_directory w dir Hcwd). intros Hout. right.
    exact (first_match_escape _ _ _ Hout).
  - rewrite (find_without_directory w e' Hcwd). intros [= <-]. left.
    split; reflexivity.
Qed.

Lemma locator_raises_only_what_escapes_witness :
  find_asgi_application Scenario.gone
  = ([], Raise (OtherException "FileNotFoundError"))
  /\ cwd Scenario.gone = Raise (OtherException "FileNotFoundError").
Proof.
  split; [reflexivity|].
  destruct (locator_raises_only_what_escapes
              Scenario.gone (OtherException "FileNotFoundError") eq_refl)
    as [[Hcwd _]|[Hbase _]].
  - exact Hcwd.
  - discriminate Hbase.
Defined.

Lemma first_match_answers (w : World) (cs : list string) :
  well_behaved w ->
  (exists c, outcome (first_match w cs) = Ret (Some c) /\ c ∈ cs /\ verifies w c)
  \/ (outcome (first_match w cs) = Ret None /\ Forall (rejected w) cs).
Proof.
  intros Hw. induction cs as [|c rest IH].
  - right. split; [reflexivity|constructor].
  - rewrite first_match_cons. cbn [outcome snd].
    destruct (checks_decide w c Hw) as [Hc|Hc].
    + left. exists c. rewrite Hc. split; [reflexivity|].
      split; [apply list_elem_of_here|exact Hc].
    + unfold rejected in Hc.
      destruct IH as [(c' & Hout & Hin & Hv)|[Hout Hall]].
      * left. exists c'. rewrite Hc. split; [exact Hout|].
        split; [apply list_elem_of_further, Hin|exact Hv].
      * right. rewrite Hc. split; [exact Hout|]. constructor; assumption.
Qed.

(** X7.  When [Path.cwd()] answers, in a project whose imports, attribute
    lookups and globs raise instances of [Exception] only,
    [find_asgi_application] returns: either a candidate of the list that
    verifies, or [None], and [None] only when every candidate was
    rejected. *)
Theorem locator_answers_in_well_behaved_world (w : World) (dir : string) :
  cwd w = Ret dir ->
  well_behaved w ->
  (exists c, outcome (find_asgi_application w) = Ret (Some c)
             /\ c ∈ candidates (path_name dir) /\ verifies w c)
  \/ (outcome (find_asgi_application w) = Ret None
      /\ Forall (rejected w) (candidates (path_name dir))).
Proof.
  intros Hcwd Hw. rewrite (find_in_directory w dir Hcwd).
  apply first_match_answers, Hw.
Qed.

Lemma locator_answers_in_well_behaved_world_witness :
  well_behaved (Scenario.two_packages ["api/main"; "web/main"])
  /\ outcome (find_asgi_application (Scenario.two_packages ["api/main"; "web/main"]))
     = Ret (Some "*/main:app").
Proof.
  split; [apply two_packages_well_behaved|].
  destruct (locator_answers_in_well_behaved_world
              (Scenario.two_packages ["api/main"; "web/main"]) "/home/dev/shop"
              eq_refl (two_packages_well_behaved _)) as [(c & Hout & _)|[Hout _]].
  - reflexivity.
  - reflexivity.
Defined.

(** X8.  A value returned by [find_asgi_application] whose module part
    carries no wildcard is a resolved entry point: the module imports, it
    has the attribute, and the attribute is callable. *)
Theorem direct_result_is_resolved (w : World) (candidate m a : string) :
  outcome (find_asgi_application w) = Ret (Some candidate) ->
  PyStr.split1 ":" candidate = [m; a] ->
  PyStr.contains "*" m = false ->
  resolved_entry_point w m a.
Proof.
  intros Hout Hsplit Hstar.
  destruct (find_returns_verified w candidate Hout) as (dir & _ & _ & Hv).
  destruct (verifies_inv w candidate Hv) as (m' & a' & Hsplit' & Hres).
  rewrite Hsplit in Hsplit'. injection Hsplit' as <- <-.
  rewrite Hstar in Hres. exact Hres.
Qed.

Lemma direct_result_is_resolved_witness :
  outcome (find_asgi_application Sample.both) = Ret (Some "main:app")
  /\ resolved_entry_point Sample.both "main" "app".
Proof.
  split; [reflexivity|].
  exact (direct_result_is_resolved Sample.both "main:app" "main" "app"
           eq_refl eq_refl eq_refl).
Defined.

(** ** The server start, case by case *)

Lemma candidates_truthy (project_name candidate : string) :
  candidate ∈ candidates project_name -> PyStr.truthy candidate = true.
Proof.
  unfold candidates. cbn [app]. intros Hin.
  repeat (apply elem_of_cons in Hin as [->|Hin]; [try reflexivity|]).
  - destruct project_name; reflexivity.
  - destruct project_name; reflexivity.
  - destruct project_name; reflexivity.
  - destruct project_name; reflexivity.
  - inversion Hin.
Qed.

Lemma found_is_truthy (w : World) (app_module : string) :
  outcome (find_asgi_application w) = Ret (Some app_module) ->
  option_truthy (Some app_module) = true.
Proof.
  intros Hout. destruct (find_returns_verified w app_module Hout) as (dir & _ & Hin & _).
  exact (candidates_truthy _ _ Hin).
Qed.

Lemma log_level_spec (settings : option Settings) :
  log_level settings
  = ([], match settings with
         | Some {| DEBUG := None |} => Raise AttributeError
         | _ => Ret (level_of settings)
         end).
Proof. destruct settings as [[[d|] k c]|]; reflexivity. Qed.

Lemma debug_readable_dec (settings : option Settings) :
  debug_readable settings
  \/ exists s, settings = Some s /\ DEBUG s = None.
Proof.
  destruct settings as [[[d|] k c]|].
  - left. intros s [= <-]. eexists. reflexivity.
  - right. eexists. split; reflexivity.
  - left. intros s [=].
Qed.

Lemma serve_spec (w : World) (config : gmap string value) :
  serve w config
  = ((ERun config
      :: match uvicorn_run w config with
         | Raise KeyboardInterrupt => [EPrint "\nServer stopped."]
         | _ => []
         end),
     match uvicorn_run w config with
     | Ret _ => Ret tt
     | Raise e => if is_KeyboardInterrupt e then Ret tt else Raise e
     end).
Proof.
  unfold serve. cbn. destruct (uvicorn_run w config) as [[]|e]; [reflexivity|].
  destruct e; reflexivity.
Qed.

(** X9.  Without [uvicorn] the command prints its two lines and leaves
    through [sys.exit(1)] before the locator runs: no module of the project
    is imported, and nothing is started. *)
Theorem missing_uvicorn_stops_before_probing (w : World) (host : string) (port : Z)
    (reload : bool) (workers : Z) (settings : option Settings) :
  uvicorn_installed w = false ->
  run_development_server w host port reload workers settings
  = ([EPrint "Error: uvicorn is required to run the server.";
      EPrint "Install it with: pip install uvicorn[standard]"],
     Raise (SystemExit 1)).
Proof. intros Hu. unfold run_development_server. rewrite Hu. reflexivity. Qed.

Lemma missing_uvicorn_stops_before_probing_witness :
  uvicorn_installed Scenario.no_uvicorn = false
  /\ outcome (run_development_server Scenario.no_uvicorn "127.0.0.1" 8000 true 4 None)
     = Raise (SystemExit 1).
Proof.
  split; [reflexivity|].
  rewrite (missing_uvicorn_stops_before_probing
             Scenario.no_uvicorn "127.0.0.1" 8000 true 4 None eq_refl).
  reflexivity.
Defined.

(** X10.  Once an application is located and [DEBUG] can be read, the
    command prints the banner, calls [uvicorn.run] once with the
    configuration built from its arguments, and ends as the runner does,
    except that a [KeyboardInterrupt] becomes a normal return after the stop
    message; any other exception of the runner reaches the caller. *)
Theorem successful_start (w : World) (host : string) (port : Z) (reload : bool)
    (workers : Z) (settings : option Settings) (app_module : string) :
  uvicorn_installed w = true ->
  outcome (find_asgi_application w) = Ret (Some app_module) ->
  debug_readable settings ->
  let config := final_config app_module host port reload workers settings in
  run_development_server w host port reload workers settings
  = ((trace (find_asgi_application w) ++ banner host port reload
      ++ ERun config
         :: match uvicorn_run w config with
            | Raise KeyboardInterrupt => [EPrint "\nServer stopped."]
            | _ => []
            end)%list,
     match uvicorn_run w config with
     | Ret _ => Ret tt
     | Raise e => if is_KeyboardInterrupt e then Ret tt else Raise e
     end).
Proof.
  intros Hu Hfind Hdebug config.
  pose proof (found_is_truthy w app_module Hfind) as Htruthy.
  unfold run_development_server. rewrite Hu. cbn [negb].
  rewrite (surjective_run (bind _ _)), trace_bind, outcome_bind, Hfind, Htruthy.
  cbn [negb default].
  assert (Hlevel : log_level settings = ([], Ret (level_of settings))).
  { rewrite log_level_spec. destruct settings as [[[d|] k c]|]; try reflexivity.
    destruct (Hdebug _ eq_refl) as [d Hd]. discriminate Hd. }
  unfold id. rewrite Hlevel.
  change (@pair (list event) (result string) [] (Ret (level_of settings)))
    with (ret (level_of settings)).
  rewrite bind_ret_l, add_ssl_spec.
  assert (Hconfig :
    match settings with
    | Some {| SSL_KEYFILE := Some key; SSL_CERTFILE := Some cert |} =>
        if truthy key && truthy cert
        then <["ssl_certfile" := cert]>
               (<["ssl_keyfile" := key]>
                  (base_config app_module host port reload workers (level_of settings)))
        else base_config app_module host port reload workers (level_of settings)
    | _ => base_config app_module host port reload workers (level_of settings)
    end = config).
  { unfold config, final_config, ssl_configured.
    destruct settings as [[d [key|] [cert|]]|]; try reflexivity.
    destruct (truthy key && truthy cert); reflexivity. }
  rewrite Hconfig.
  change (@pair (list event) (result (gmap string value)) [] (Ret config))
    with (ret config).
  rewrite bind_ret_l, serve_spec.
  destruct reload; reflexivity.
Qed.

Lemma successful_start_witness :
  outcome (run_development_server Scenario.interrupted "127.0.0.1" 8000 false 1 None)
  = Ret tt
  /\ last (trace (run_development_server Scenario.interrupted "127.0.0.1" 8000 false 1 None))
     = Some (EPrint "\nServer stopped.").
Proof.
  assert (Hdebug : debug_readable None) by (intros s [=]).
  rewrite (successful_start Scenario.interrupted "127.0.0.1" 8000 false 1 None
             "main:app" eq_refl eq_refl Hdebug).
  split; reflexivity.
Defined.

(** X11.  With settings on which [DEBUG] is missing, the command fails with
    [AttributeError] after the banner: [settings.DEBUG] is read without the
    [hasattr] test that guards the SSL attributes, and [uvicorn.run] is not
    reached. *)
Theorem missing_debug_raises (w : World) (host : string) (port : Z) (reload : bool)
    (workers : Z) (s : Settings) (app_module : string) :
  uvicorn_installed w = true ->
  outcome (find_asgi_application w) = Ret (Some app_module) ->
  DEBUG s = None ->
  run_development_server w host port reload workers (Some s)
  = ((trace (find_asgi_application w) ++ banner host port reload)%list,
     Raise AttributeError).
Proof.
  intros Hu Hfind Hd.
  pose proof (found_is_truthy w app_module Hfind) as Htruthy.
  unfold run_development_server. rewrite Hu. cbn [negb].
  rewrite (surjective_run (bind _ _)), trace_bind, outcome_bind, Hfind, Htruthy.
  cbn [negb default]. rewrite log_level_spec.
  destruct s as [d k c]. cbn in Hd. subst d.
  destruct reload; reflexivity.
Qed.

Lemma missing_debug_raises_witness :
  DEBUG Scenario.no_debug = None
  /\ outcome (run_development_server Sample.both "127.0.0.1" 8000 false 1
                (Some Scenario.no_debug))
     = Raise AttributeError.
Proof.
  split; [reflexivity|].
  rewrite (missing_debug_raises Sample.both "127.0.0.1" 8000 false 1
             Scenario.no_debug "main:app" eq_refl eq_refl eq_refl).
  reflexivity.
Defined.

Lemma runs_final (w : World) (host : string) (port : Z) (reload : bool)
    (workers : Z) (settings : option Settings) :
  runs (trace (run_development_server w host port reload workers settings))
  = if uvicorn_installed w then
      match outcome (find_asgi_application w) with
      | Ret (Some app_module) =>
          match settings with
          | Some {| DEBUG := None |} => []
          | _ => [final_config app_module host port reload workers settings]
          end
      | _ => []
      end
    else [].
Proof.
  rewrite runs_of_server. destruct (uvicorn_installed w); [|reflexivity].
  destruct (outcome (find_asgi_application w)) as [[app_module|]|e] eqn:Hfind;
    try reflexivity.
  rewrite (found_is_truthy w app_module Hfind). cbn [default].
  rewrite log_level_spec. cbn [outcome snd].
  destruct settings as [[[d|] [key|] [cert|]]|]; try reflexivity.
  rewrite add_ssl_spec. unfold final_config. cbn [outcome snd ssl_configured].
  destruct (truthy key && truthy cert); reflexivity.
Qed.

(** X12.  [uvicorn.run] is called at most once, and it is called exactly
    when [uvicorn] is installed, the locator returns a candidate, and
    [DEBUG] can be read from the settings. *)
Theorem server_started_exactly_when (w : World) (host : string) (port : Z)
    (reload : bool) (workers : Z) (settings : option Settings) :
  (length (runs (trace (run_development_server w host port reload workers settings)))
   <= 1)%nat
  /\ (runs (trace (run_development_server w host port reload workers settings)) <> []
      <-> uvicorn_installed w = true
          /\ (exists app_module,
                 outcome (find_asgi_application w) = Ret (Some app_module))
          /\ debug_readable settings).
Proof.
  rewrite runs_final.
  destruct (uvicorn_installed w).
  2:{ split; [cbn; lia|]. split; [congruence|]. intros (Hu & _). discriminate. }
  destruct (outcome (find_asgi_application w)) as [[app_module|]|e].
  - destruct (debug_readable_dec settings) as [Hd|(s & -> & Hd)].
    + assert (Hrun : match settings with
                     | Some {| DEBUG := None |} => []
                     | _ => [final_config app_module host port reload workers settings]
                     end
                     = [final_config app_module host port reload workers settings]).
      { destruct settings as [[[d|] k c]|]; try reflexivity.
        destruct (Hd _ eq_refl) as [d Hsome]. discriminate Hsome. }
      rewrite Hrun. split; [cbn; lia|]. split; [|discriminate].
      intros _. split; [reflexivity|]. split; [eauto|exact Hd].
    + destruct s as [d k c]. cbn in Hd. subst d.
      split; [cbn; lia|]. split; [congruence|].
      intros (_ & _ & Hread). destruct (Hread _ eq_refl) as [d Hsome].
      discriminate Hsome.
  - split; [cbn; lia|]. split; [congruence|].
    intros (_ & (app & Happ) & _). discriminate.
  - split; [cbn; lia|]. split; [congruence|].
    intros (_ & (app & Happ) & _). discriminate.
Qed.

Lemma config_is_final (w : World) (host : string) (port : Z) (reload : bool)
    (workers : Z) (settings : option Settings) (config : gmap string value) :
  config ∈ runs (trace (run_development_server w host port reload workers settings)) ->
  exists app_module,
    outcome (find_asgi_application w) = Ret (Some app_module)
    /\ config = final_config app_module host port reload workers settings.
Proof.
  rewrite runs_final.
  destruct (uvicorn_installed w); [|intros H; inversion H].
  destruct (outcome (find_asgi_application w)) as [[app_module|]|e];
    try (intros H; inversion H; fail).
  intros Hin. exists app_module. split; [reflexivity|].
  destruct settings as [[[d|] k c]|];
    try (apply list_elem_of_singleton in Hin; exact Hin).
  inversion Hin.
Qed.

(** X13.  The configuration handed to the server runner has the seven keys
    of the dictionary literal, and the two SSL keys when the settings
    configure SSL; it has no other key, so the reload watch set is never
    passed on. *)
Theorem config_keys (w : World) (host : string) (port : Z) (reload : bool)
    (workers : Z) (settings : option Settings) (config : gmap string value) :
  config ∈ runs (trace (run_development_server w host port reload workers settings)) ->
  dom config
  = base_keys ∪ match ssl_configured settings with
                | Some _ => ssl_keys
                | None => ∅
                end.
Proof.
  intros Hin. destruct (config_is_final _ _ _ _ _ _ _ Hin) as (app & _ & ->).
  unfold final_config, base_config, base_keys, ssl_keys.
  destruct (ssl_configured settings) as [[key cert]|];
    rewrite !dom_insert_L, dom_empty_L; cbn [list_to_set]; set_solver.
Qed.

Lemma config_keys_witness :
  exists config,
    runs (trace (run_development_server
                   Sample.both "0.0.0.0" 8443 false 2 (Some Sample.ssl_set)))
    = [config]
    /\ dom config = base_keys ∪ ssl_keys.
Proof.
  assert (Hruns : runs (trace (run_development_server
                                 Sample.both "0.0.0.0" 8443 false 2 (Some Sample.ssl_set)))
                  = [final_config "main:app" "0.0.0.0" 8443 false 2 (Some Sample.ssl_set)]).
  { rewrite runs_final. reflexivity. }
  eexists. split; [exact Hruns|].
  apply (config_keys Sample.both "0.0.0.0" 8443 false 2 (Some Sample.ssl_set)).
  rewrite Hruns. apply list_elem_of_here.
Defined.

(** X14.  The configuration handed to the server runner carries the string
    that the locator returned, unchanged, as [app]; the given host, port and
    reload flag; [access_log] set; and the log level [debug] when the
    settings have a true [DEBUG], [info] otherwise. *)
Theorem config_values (w : World) (host : string) (port : Z) (reload : bool)
    (workers : Z) (settings : option Settings) (config : gmap string value) :
  config ∈ runs (trace (run_development_server w host port reload workers settings)) ->
  exists app_module,
    outcome (find_asgi_application w) = Ret (Some app_module)
    /\ config !! "app" = Some (VStr app_module)
    /\ config !! "host" = Some (VStr host)
    /\ config !! "port" = Some (VInt port)
    /\ config !! "reload" = Some (VBool reload)
    /\ config !! "access_log" = Some (VBool true)
    /\ config !! "log_level" = Some (VStr (level_of settings)).
Proof.
  intros Hin. destruct (config_is_final _ _ _ _ _ _ _ Hin) as (app & Hfind & ->).
  exists app. split; [exact Hfind|].
  unfold final_config, base_config.
  destruct (ssl_configured settings) as [[key cert]|];
    repeat (split; [repeat (rewrite lookup_insert_ne by discriminate);
                    apply lookup_insert_eq|]);
    repeat (rewrite lookup_insert_ne by discriminate); apply lookup_insert_eq.
Qed.

Lemma config_values_witness :
  exists config,
    runs (trace (run_development_server Sample.nested "127.0.0.1" 8000 true 4 None))
    = [config]
    /\ config !! "app" = Some (VStr "*/main:app").
Proof.
  assert (Hruns : runs (trace (run_development_server
                                 Sample.nested "127.0.0.1" 8000 true 4 None))
                  = [final_config "*/main:app" "127.0.0.1" 8000 true 4 None]).
  { rewrite runs_final. reflexivity. }
  eexists. split; [exact Hruns|].
  destruct (config_values Sample.nested "127.0.0.1" 8000 true 4 None _
              (eq_ind_r (fun l => _ ∈ l) (list_elem_of_here _ _) Hruns))
    as (app & Hfind & Happ & _).
  injection Hfind as <-. exact Happ.
Defined.

(** ** The reload watch set, as a list *)

Lemma filter_names_nodup (f : DirEntry -> bool) (items : list DirEntry) :
  NoDup (entry_name <$> items) -> NoDup (entry_name <$> List.filter f items).
Proof.
  induction items as [|x rest IH]; [intros _; constructor|].
  rewrite fmap_cons. intros [Hx Hrest]%NoDup_cons. cbn [List.filter].
  destruct (f x); [|exact (IH Hrest)].
  rewrite fmap_cons. apply NoDup_cons. split; [|exact (IH Hrest)].
  intros Hin. apply Hx.
  apply list_elem_of_fmap in Hin as (y & -> & Hy).
  apply list_elem_of_In, filter_In in Hy as [Hy _].
  apply list_elem_of_fmap. exists y. split; [reflexivity|apply list_elem_of_In, Hy].
Qed.

(** X15.  Whenever [get_reload_dirs] returns, the list is the working
    directory followed by the paths of the watched entries in the order of
    the listing; when the listing has distinct, non-empty names, no
    directory is in it twice. *)
Theorem reload_dirs_in_order (w : World) (dirs : list string) :
  outcome (get_reload_dirs w) = Ret dirs ->
  exists dir items,
    cwd w = Ret dir
    /\ iterdir w = Ret items
    /\ dirs = dir :: (entry_path dir <$> List.filter watched items)
    /\ (listing_ok items -> NoDup dirs).
Proof.
  rewrite get_reload_dirs_outcome.
  destruct (cwd w) as [dir|e]; [|discriminate].
  destruct (iterdir w) as [items|e]; [|discriminate].
  pose proof (reload_loop_outcome dir items [dir]) as Hloop.
  destruct (outcome (reload_loop dir items [dir])) as [dirs'|e]; [|discriminate].
  destruct Hloop as [_ ->]. intros [= <-].
  exists dir, items. split; [reflexivity|]. split; [reflexivity|].
  split; [reflexivity|].
  intros [Hnd Hnames]. cbn [app]. apply NoDup_cons. split.
  - intros Hin. apply list_elem_of_fmap in Hin as (item & Hpath & Hitem).
    apply list_elem_of_In, filter_In in Hitem as [Hitem _].
    rewrite Forall_forall in Hnames.
    apply (path_join_neq dir (entry_name item)).
    + apply Hnames, list_elem_of_In, Hitem.
    + symmetry. exact Hpath.
  - assert (Hmap : entry_path dir <$> List.filter watched items
                   = path_join dir <$> (entry_name <$> List.filter watched items)).
    { rewrite <- list_fmap_compose. reflexivity. }
    rewrite Hmap. apply NoDup_fmap_2.
    + intros n1 n2. apply path_join_inj.
    + apply filter_names_nodup, Hnd.
Qed.

Lemma reload_dirs_in_order_witness :
  outcome (get_reload_dirs Sample.empty)
  = Ret ["/home/dev/shop"; "/home/dev/shop/pkg"]
  /\ exists dir items,
       iterdir Sample.empty = Ret items
       /\ ["/home/dev/shop"; "/home/dev/shop/pkg"]
          = dir :: (entry_path dir <$> List.filter watched items).
Proof.
  split; [reflexivity|].
  destruct (reload_dirs_in_order Sample.empty
              ["/home/dev/shop"; "/home/dev/shop/pkg"] eq_refl)
    as (dir & items & _ & Hiter & Hdirs & _).
  exists dir, items. split; assumption.
Defined.

(** ** A wildcard that matches nothing *)

(** X16.  When [glob] finds nothing for a wildcard candidate, or fails with
    an instance of [Exception], [check_asgi_module] rejects the candidate
    after that one glob: no import is attempted. *)
Theorem wildcard_without_matches (w : World) (candidate m a : string) :
  PyStr.split1 ":" candidate = [m; a] ->
  PyStr.contains "*" m = true ->
  glob w (PyStr.replace "*" "*/" m) = Ret []
  \/ (exists e, glob w (PyStr.replace "*" "*/" m) = Raise e /\ is_Exception e = true) ->
  check_asgi_module w candidate = ([EGlob (PyStr.replace "*" "*/" m)], Ret false).
Proof.
  intros Hsplit Hstar Hglob.
  assert (Hcolon : PyStr.contains ":" candidate = true).
  { destruct (PyStr.contains ":" candidate) eqn:Hc; [reflexivity|].
    rewrite (split1_without _ _ Hc) in Hsplit. discriminate. }
  unfold check_asgi_module, check_asgi_module_body.
  rewrite Hcolon, Hsplit. cbn [negb].
  change (unpack2 [m; a]) with (ret (m, a)). rewrite bind_ret_l.
  cbv beta iota zeta. rewrite Hstar. unfold do_glob.
  destruct Hglob as [->|(e & -> & He)].
  - reflexivity.
  - cbn. unfold except_Exception, try_except. rewrite He. reflexivity.
Qed.

Lemma wildcard_without_matches_witness :
  check_asgi_module Sample.both "*/main:app" = ([EGlob "*//main"], Ret false).
Proof.
  exact (wildcard_without_matches Sample.both "*/main:app" "*/main" "app"
           eq_refl eq_refl (or_introl eq_refl)).
Defined.
